(** * A/B test analysis: a shallow embedding of [ab_test_analysis.py]

    The program is a linear pipeline of closed-form statistics over a table
    of 0/1 conversion outcomes.  Every stage of [ABTestAnalyzer] is embedded
    below as a function on an explicit analyzer state, in an exception
    monad.  The arithmetic of the stages is written once, over an interface
    [Scalar], and read at two instances:

    - [float] (IEEE 754 binary64, the kernel's primitive floats): what the
      Python interpreter and numpy execute;
    - [R] (the real numbers): the exact arithmetic in which the formulas of
      the documentation are meant.

    Functions of scipy, numpy.random and statsmodels are not part of the
    program; the stages take them as section variables. *)

From Stdlib Require Import ZArith List String Bool Lia.
From Stdlib Require Import Floats Reals Lra.
From stdpp Require Import base option list gmap strings.

#[local] Set Warnings "-inexact-float".

(** ** Exceptions *)

Inductive exn : Type :=
  | KeyError (key : string)
  | ValueError
  | TypeError
  | ZeroDivisionError.

Inductive result (A : Type) : Type :=
  | Ok (a : A)
  | Raise (e : exn).
Arguments Ok {A} a.
Arguments Raise {A} e.

#[global] Instance result_ret : MRet result := fun _ a => Ok a.
#[global] Instance result_bind : MBind result := fun _ _ k m =>
  match m with
  | Ok a => k a
  | Raise e => Raise e
  end.
#[global] Instance result_fmap : FMap result := fun _ _ f m =>
  match m with
  | Ok a => Ok (f a)
  | Raise e => Raise e
  end.

Definition is_ok {A} (m : result A) : bool :=
  match m with Ok _ => true | Raise _ => false end.

(** ** Scalars

    [of_int] is the conversion of a Python [int] (or numpy [int64]) to a
    float that every mixed operation performs; the other fields are the
    float operations the program uses.  [flt x y] is [x < y]. *)

Class Scalar (F : Type) : Type := {
  of_int : Z -> F;
  fadd : F -> F -> F;
  fsub : F -> F -> F;
  fmul : F -> F -> F;
  fdiv : F -> F -> F;
  fsqrt : F -> F;
  fabs : F -> F;
  flt : F -> F -> bool;
}.

Declare Scope scalar_scope.
Delimit Scope scalar_scope with S.
Infix "+" := fadd : scalar_scope.
Infix "-" := fsub : scalar_scope.
Infix "*" := fmul : scalar_scope.
Infix "/" := fdiv : scalar_scope.
Infix "<?" := flt : scalar_scope.

(** A decimal literal of the source, [num/den] with both parts exactly
    representable: the correctly rounded quotient is the float the Python
    parser produces (checked for each literal used, see [literals_binary64]). *)
Definition lit {F} `{Scalar F} (num den : Z) : F :=
  (of_int num / of_int den)%S.

(** Binary64: the primitive floats.  An integer is converted by rounding to
    nearest, ties to even. *)
#[global] Instance float_scalar : Scalar float := {
  of_int z := SF2Prim (binary_normalize prec emax z 0 false);
  fadd := PrimFloat.add;
  fsub := PrimFloat.sub;
  fmul := PrimFloat.mul;
  fdiv := PrimFloat.div;
  fsqrt := PrimFloat.sqrt;
  fabs := PrimFloat.abs;
  flt := PrimFloat.ltb;
}.

(** Exact arithmetic: the reals. *)
#[global] Instance real_scalar : Scalar R := {
  of_int := IZR;
  fadd := Rplus;
  fsub := Rminus;
  fmul := Rmult;
  fdiv := Rdiv;
  fsqrt := R_sqrt.sqrt;
  fabs := Rabs;
  flt x y := if Rlt_dec x y then true else false;
}.

(** ** Data model *)

Inductive group : Type := Control | Treatment.

#[global] Instance group_eq_dec : EqDecision group.
Proof. solve_decision. Defined.

Definition group_name (g : group) : string :=
  match g with Control => "Control" | Treatment => "Treatment" end.

(** One row of the data frame [df]. *)
Record row : Type := Row {
  user_id : Z;
  grp : group;
  converted : Z;
}.

(** A value stored in the [results] dictionary. *)
Inductive value (F : Type) : Type :=
  | VNum (x : F)
  | VPair (lo hi : F)
  | VStr (s : string).
Arguments VNum {F} x.
Arguments VPair {F} lo hi.
Arguments VStr {F} s.

(** The attributes of an [ABTestAnalyzer] instance. *)
Record ABTestAnalyzer (F : Type) : Type := Analyzer {
  control_rate : F;
  treatment_rate : F;
  n_per_group : Z;
  alpha : F;
  df : list row;
  results : gmap string (value F);
}.
Arguments Analyzer {F}.
Arguments control_rate {F}.
Arguments treatment_rate {F}.
Arguments n_per_group {F}.
Arguments alpha {F}.
Arguments df {F}.
Arguments results {F}.

(** [self.results[key] = v] *)
Definition store {F} (key : string) (v : value F) (self : ABTestAnalyzer F)
  : ABTestAnalyzer F :=
  Analyzer (control_rate self) (treatment_rate self) (n_per_group self)
           (alpha self) (df self) (<[key := v]> (results self)).

(** [self.results[key]], read as a number. *)
Definition get_num {F} (self : ABTestAnalyzer F) (key : string) : result F :=
  match results self !! key with
  | Some (VNum x) => Ok x
  | Some _ => Raise TypeError
  | None => Raise (KeyError key)
  end.

(** [self.results[key]], read as a pair. *)
Definition get_pair {F} (self : ABTestAnalyzer F) (key : string)
  : result (F * F) :=
  match results self !! key with
  | Some (VPair lo hi) => Ok (lo, hi)
  | Some _ => Raise TypeError
  | None => Raise (KeyError key)
  end.

(** The printed verdict of section 7 of the report. *)
Inductive recommendation : Type :=
  | Proceed
  | Insufficient.

(** ** Data frame helpers (pandas) *)

(** [pd.DataFrame({...})]: the columns must have one length. *)
Definition pd_DataFrame (ids : list Z) (groups : list group)
    (conv : list Z) : result (list row) :=
  if decide (length ids = length groups ∧ length groups = length conv)
  then Ok (zip_with (fun ig c => Row ig.1 ig.2 c) (zip ids groups) conv)
  else Raise ValueError.

(** [df[df['group'] == g]['converted']] *)
Definition converted_of (d : list row) (g : group) : list Z :=
  converted <$> filter (fun r => grp r = g) d.

Definition sum_list (l : list Z) : Z := foldr Z.add 0%Z l.

Definition len (l : list Z) : Z := Z.of_nat (length l).

(** One line of [df.groupby('group')['converted'].agg(['sum','count','mean'])]. *)
Record agg (F : Type) : Type := Agg {
  agg_sum : Z;
  agg_count : Z;
  agg_mean : F;
}.
Arguments Agg {F}.
Arguments agg_sum {F}.
Arguments agg_count {F}.
Arguments agg_mean {F}.

(** The aggregate of one group; a group with no row has no line. *)
Definition groupby_agg {F} `{Scalar F} (d : list row) (g : group)
  : option (agg F) :=
  match converted_of d g with
  | [] => None
  | l => Some (Agg (sum_list l) (len l) (of_int (sum_list l) / of_int (len l))%S)
  end.

(** [summary.loc[g, 'mean']] *)
Definition loc_mean {F} `{Scalar F} (d : list row) (g : group) : result F :=
  match groupby_agg d g with
  | Some a => Ok (agg_mean a)
  | None => Raise (KeyError (group_name g))
  end.

(** [a / b] on two Python ints: true division, an exception on zero. *)
Definition int_truediv {F} `{Scalar F} (a b : Z) : result F :=
  if decide (b = 0%Z) then Raise ZeroDivisionError
  else Ok (of_int a / of_int b)%S.

(** ** The analyzer *)

Section Analyzer.
Context {F : Type} `{Scalar F}.

(** *** Library functions the program calls *)

(** The state of numpy's global generator, [np.random.seed] and
    [np.random.binomial n p size], which may raise and advances the
    state. *)
Variable rng : Type.
Variable np_random_seed : Z -> rng.
Variable np_random_binomial : Z -> F -> Z -> rng -> result (list Z * rng).

(** [scipy.stats.norm.cdf], [scipy.stats.norm.ppf], [np.arcsin]. *)
Variable norm_cdf : F -> F.
Variable norm_ppf : F -> F.
Variable np_arcsin : F -> F.

(** [scipy.stats.ttest_ind a b], returning statistic and p-value. *)
Variable ttest_ind : list Z -> list Z -> F * F.

(** [statsmodels]: [proportion_effectsize prop1 prop2] and
    [zt_ind_solve_power effect_size nobs1 alpha power ratio alternative],
    which solves for the one argument left out. *)
Variable proportion_effectsize : F -> F -> F.
Variable zt_ind_solve_power :
  option F -> option F -> option F -> option F -> F -> string -> result F.

(** *** Construction and data generation *)

(** [_generate_data]: two vectors of [n_per_group] Bernoulli draws, first
    the control group's, then the treatment group's, from the generator
    state [g]. *)
Definition _generate_data (control_rate treatment_rate : F)
    (n_per_group : Z) (g : rng) : result (list row * rng) :=
  '(control_conversions, g) ←
      np_random_binomial 1 control_rate n_per_group g;
  '(treatment_conversions, g) ←
      np_random_binomial 1 treatment_rate n_per_group g;
  d ← pd_DataFrame
        (seqZ 1 (2 * n_per_group))
        (replicate (Z.to_nat n_per_group) Control
           ++ replicate (Z.to_nat n_per_group) Treatment)
        (control_conversions ++ treatment_conversions);
  mret (d, g).

(** [__init__]: store the configuration, seed the global generator with
    42, generate the data, start with empty results.  [g] is the state
    the global generator is in when the constructor is called. *)
Definition __init__ (control_rate treatment_rate : F) (n_per_group : Z)
    (alpha : F) (g : rng) : result (ABTestAnalyzer F * rng) :=
  let g := np_random_seed 42 in
  '(d, g) ← _generate_data control_rate treatment_rate n_per_group g;
  mret (Analyzer control_rate treatment_rate n_per_group alpha d ∅, g).

(** *** Basic metrics *)

Definition absolute_lift_of (control_rate treatment_rate : F) : F :=
  (treatment_rate - control_rate)%S.

Definition relative_lift_of (control_rate treatment_rate : F) : F :=
  ((treatment_rate / control_rate - of_int 1) * of_int 100)%S.

Definition calculate_basic_metrics (self : ABTestAnalyzer F)
  : result (ABTestAnalyzer F * (group -> option (agg F))) :=
  let summary := groupby_agg (df self) in
  control_rate ← loc_mean (df self) Control;
  treatment_rate ← loc_mean (df self) Treatment;
  let absolute_lift := absolute_lift_of control_rate treatment_rate in
  let relative_lift := relative_lift_of control_rate treatment_rate in
  mret (store "relative_lift" (VNum relative_lift)
       (store "absolute_lift" (VNum absolute_lift)
       (store "treatment_rate" (VNum treatment_rate)
       (store "control_rate" (VNum control_rate) self))),
        summary).

(** *** Hypothesis test *)

Definition pooled_prob_of (control_conv control_n treatment_conv
    treatment_n : Z) : F :=
  (of_int (control_conv + treatment_conv)
     / of_int (control_n + treatment_n))%S.

Definition pooled_se_of (pooled_prob inv_control_n inv_treatment_n : F)
  : F :=
  fsqrt (pooled_prob * (of_int 1 - pooled_prob)
           * (inv_control_n + inv_treatment_n))%S.

Definition z_stat_of (control_rate treatment_rate pooled_se : F) : F :=
  ((treatment_rate - control_rate) / pooled_se)%S.

Definition p_value_of (z_stat : F) : F :=
  (of_int 2 * (of_int 1 - norm_cdf (fabs z_stat)))%S.

(** The pooled standard error of the data frame, as [run_hypothesis_test]
    computes it; [1/control_n] and [1/treatment_n] divide Python ints. *)
Definition pooled_se_df (d : list row) : result F :=
  let control_data := converted_of d Control in
  let treatment_data := converted_of d Treatment in
  let pooled_prob :=
    pooled_prob_of (sum_list control_data) (len control_data)
                   (sum_list treatment_data) (len treatment_data) in
  inv_c ← int_truediv 1 (len control_data);
  inv_t ← int_truediv 1 (len treatment_data);
  mret (pooled_se_of pooled_prob inv_c inv_t).

Definition run_hypothesis_test (self : ABTestAnalyzer F)
  : result (ABTestAnalyzer F * (F * F)) :=
  let control_data := converted_of (df self) Control in
  let treatment_data := converted_of (df self) Treatment in
  pooled_se ← pooled_se_df (df self);
  treatment_rate ← get_num self "treatment_rate";
  control_rate ← get_num self "control_rate";
  let z_stat := z_stat_of control_rate treatment_rate pooled_se in
  let p_value := p_value_of z_stat in
  let '(t_stat, t_pvalue) := ttest_ind treatment_data control_data in
  mret (store "t_pvalue" (VNum t_pvalue)
       (store "t_stat" (VNum t_stat)
       (store "p_value" (VNum p_value)
       (store "z_stat" (VNum z_stat) self))),
        (z_stat, p_value)).

(** *** Confidence intervals *)

(** The local function [ci], called with its default [confidence=0.95]. *)
Definition ci (successes n : Z) : F * F :=
  let confidence : F := lit 95 100 in
  let prop := (of_int successes / of_int n)%S in
  let z_critical :=
    norm_ppf (of_int 1 - (of_int 1 - confidence) / of_int 2)%S in
  let se := fsqrt (prop * (of_int 1 - prop) / of_int n)%S in
  let margin := (z_critical * se)%S in
  ((prop - margin)%S, (prop + margin)%S).

(** The interval for the difference of the two rates. *)
Definition diff_ci_of (control_rate treatment_rate : F) (n_per_group : Z)
  : F * F :=
  let diff := (treatment_rate - control_rate)%S in
  let se_diff :=
    fsqrt (control_rate * (of_int 1 - control_rate) / of_int n_per_group
           + treatment_rate * (of_int 1 - treatment_rate)
               / of_int n_per_group)%S in
  let z_critical : F := lit 196 100 in
  ((diff - z_critical * se_diff)%S, (diff + z_critical * se_diff)%S).

Definition calculate_confidence_intervals (self : ABTestAnalyzer F)
  : result (ABTestAnalyzer F * ((F * F) * (F * F) * (F * F))) :=
  let control_data := converted_of (df self) Control in
  let treatment_data := converted_of (df self) Treatment in
  let control_ci := ci (sum_list control_data) (len control_data) in
  let treatment_ci := ci (sum_list treatment_data) (len treatment_data) in
  treatment_rate ← get_num self "treatment_rate";
  control_rate ← get_num self "control_rate";
  let diff_ci := diff_ci_of control_rate treatment_rate (n_per_group self) in
  mret (store "diff_ci" (VPair diff_ci.1 diff_ci.2)
       (store "treatment_ci" (VPair treatment_ci.1 treatment_ci.2)
       (store "control_ci" (VPair control_ci.1 control_ci.2) self)),
        (control_ci, treatment_ci, diff_ci)).

(** *** Effect size *)

Definition cohens_h_of (control_rate treatment_rate : F) : F :=
  (of_int 2 * (np_arcsin (fsqrt treatment_rate)
                 - np_arcsin (fsqrt control_rate)))%S.

Definition effect_category_of (h : F) : string :=
  if (fabs h <? lit 2 10)%S then "Small"
  else if (fabs h <? lit 5 10)%S then "Medium"
  else "Large".

Definition calculate_effect_size (self : ABTestAnalyzer F)
  : result (ABTestAnalyzer F * (F * string)) :=
  treatment_rate ← get_num self "treatment_rate";
  control_rate ← get_num self "control_rate";
  let h := cohens_h_of control_rate treatment_rate in
  let category := effect_category_of h in
  mret (store "effect_category" (VStr category)
       (store "cohens_h" (VNum h) self),
        (h, category)).

(** *** Power *)

Definition calculate_power (self : ABTestAnalyzer F)
  : result (ABTestAnalyzer F * (F * F)) :=
  control_rate ← get_num self "control_rate";
  treatment_rate ← get_num self "treatment_rate";
  let effect_size := proportion_effectsize control_rate treatment_rate in
  achieved_power ←
    zt_ind_solve_power (Some effect_size) (Some (of_int (n_per_group self)))
      (Some (alpha self)) None (of_int 1) "two-sided";
  required_n ←
    zt_ind_solve_power (Some effect_size) None (Some (alpha self))
      (Some (lit 8 10)) (of_int 1) "two-sided";
  mret (store "required_n" (VNum required_n)
       (store "achieved_power" (VNum achieved_power) self),
        (achieved_power, required_n)).

(** *** Business impact *)

Definition calculate_business_impact (self : ABTestAnalyzer F)
    (monthly_visitors avg_order_value : F)
  : result (ABTestAnalyzer F * F) :=
  control_rate ← get_num self "control_rate";
  let current_conversions := (monthly_visitors * control_rate)%S in
  treatment_rate ← get_num self "treatment_rate";
  let projected_conversions := (monthly_visitors * treatment_rate)%S in
  let current_revenue := (current_conversions * avg_order_value)%S in
  let projected_revenue := (projected_conversions * avg_order_value)%S in
  let additional_conversions :=
    (projected_conversions - current_conversions)%S in
  let additional_revenue := (projected_revenue - current_revenue)%S in
  mret (store "additional_revenue" (VNum additional_revenue)
       (store "additional_conversions" (VNum additional_conversions)
       (store "avg_order_value" (VNum avg_order_value)
       (store "monthly_visitors" (VNum monthly_visitors) self))),
        additional_revenue).

(** *** The pipeline *)

(** The final [if] of [run_full_analysis]; [and] does not read the
    interval when the test is not significant. *)
Definition recommend (is_significant : bool) (self : ABTestAnalyzer F)
  : result recommendation :=
  if is_significant then
    diff_ci ← get_pair self "diff_ci";
    mret (if (of_int 0 <? diff_ci.1)%S then Proceed else Insufficient)
  else mret Insufficient.

(** [run_full_analysis]: the stages in order, then the verdict.  The
    report lines only format values the stage before them has stored;
    of the printed text the embedding keeps the verdict. *)
Definition run_full_analysis (self : ABTestAnalyzer F)
  : result (ABTestAnalyzer F * recommendation) :=
  '(self, _) ← calculate_basic_metrics self;
  '(self, _) ← run_hypothesis_test self;
  p_value ← get_num self "p_value";
  let is_significant := (p_value <? alpha self)%S in
  '(self, _) ← calculate_confidence_intervals self;
  '(self, _) ← calculate_effect_size self;
  '(self, _) ← calculate_power self;
  '(self, _) ← calculate_business_impact self (of_int 100000) (of_int 75);
  verdict ← recommend is_significant self;
  mret (self, verdict).

(** [main], up to the analysis: the analyzer of the default configuration
    and its full analysis. *)
Definition main (g : rng)
  : result (ABTestAnalyzer F * recommendation * rng) :=
  '(analyzer, g) ← __init__ (lit 12 100) (lit 145 1000) 5000 (lit 5 100) g;
  '(analyzer, verdict) ← run_full_analysis analyzer;
  mret (analyzer, verdict, g).

End Analyzer.

(** ** A sample library

    Executable stand-ins for the library functions, on binary64, used to run
    the stages on concrete inputs.  The sampler performs numpy's argument
    checks ([p] outside [[0,1]] or not a number, or a negative [size], is a
    [ValueError]) and draws by inversion from a linear congruential stream;
    the distribution functions are short series and bisections.  They are
    not the algorithms of numpy, scipy or statsmodels, and no theorem below
    depends on their accuracy: theorems quantify over the library. *)

Module Sample.

Definition rng : Type := Z.

Definition seed (s : Z) : rng := (s mod 2147483648)%Z.

Definition next (g : rng) : rng :=
  ((1103515245 * g + 12345) mod 2147483648)%Z.

Definition uniform (g : rng) : float :=
  (of_int g / of_int 2147483648)%S.

Fixpoint draws (p : float) (k : nat) (g : rng) : list Z * rng :=
  match k with
  | O => ([], g)
  | S k =>
      let g1 := next g in
      let x := if (uniform g1 <? p)%S then 1%Z else 0%Z in
      let '(xs, g2) := draws p k g1 in
      (x :: xs, g2)
  end.

Definition binomial (n : Z) (p : float) (size : Z) (g : rng)
  : result (list Z * rng) :=
  if negb (PrimFloat.leb 0 p && PrimFloat.leb p 1) then Raise ValueError
  else if (size <? 0)%Z then Raise ValueError
  else if (n =? 1)%Z then Ok (draws p (Z.to_nat size) g)
  else Raise ValueError.

(** [sum_{k < fuel} t_k / (2k+1)] with [t_0 = t], [t_{k+1} = - t_k x²/(2(k+1))]. *)
Fixpoint cdf_series (fuel : nat) (k : Z) (x2 t acc : float) : float :=
  match fuel with
  | O => acc
  | S fuel =>
      cdf_series fuel (k + 1) x2
        (PrimFloat.opp t * x2 / of_int (2 * (k + 1)))%float
        (acc + t / of_int (2 * k + 1))%float
  end.

Definition norm_cdf (x : float) : float :=
  if PrimFloat.ltb x (-8) then 0%float
  else if PrimFloat.ltb 8 x then 1%float
  else (0.5 + 0.3989422804014327 * cdf_series 200 0 (x * x) x 0)%float.

Fixpoint bisect (fuel : nat) (f : float -> float) (y lo hi : float) : float :=
  match fuel with
  | O => ((lo + hi) / 2)%float
  | S fuel =>
      let mid := ((lo + hi) / 2)%float in
      if PrimFloat.ltb (f mid) y then bisect fuel f y mid hi
      else bisect fuel f y lo mid
  end.

Definition norm_ppf (q : float) : float := bisect 80 norm_cdf q (-9) 9.

(** [sum_k t_k / (2k+1)] with [t_{k+1} = t_k x² (2k+1)/(2k+2)]. *)
Fixpoint asin_series (fuel : nat) (k : Z) (x2 t acc : float) : float :=
  match fuel with
  | O => acc
  | S fuel =>
      asin_series fuel (k + 1) x2
        (t * x2 * of_int (2 * k + 1) / of_int (2 * k + 2))%float
        (acc + t / of_int (2 * k + 1))%float
  end.

Definition arcsin (x : float) : float :=
  if PrimFloat.leb (PrimFloat.abs x) 0.5
  then asin_series 60 0 (x * x)%float x 0%float
  else
    let y := PrimFloat.sqrt ((1 - PrimFloat.abs x) / 2)%float in
    let a := (1.5707963267948966 - 2 * asin_series 60 0 (y * y) y 0)%float in
    if PrimFloat.ltb x 0 then PrimFloat.opp a else a.

Definition mean (l : list Z) : float := (of_int (sum_list l) / of_int (len l))%S.

Definition sum_sq_dev (l : list Z) : float :=
  let m := mean l in
  foldr (fun x acc => ((of_int x - m) * (of_int x - m) + acc)%float) 0%float l.

(** Pooled-variance two-sample t statistic; the p-value by the normal
    approximation. *)
Definition ttest_ind (a b : list Z) : float * float :=
  let dof := of_int (len a + len b - 2) in
  let sp2 := ((sum_sq_dev a + sum_sq_dev b) / dof)%float in
  let t := ((mean a - mean b)
              / PrimFloat.sqrt (sp2 * (1 / of_int (len a) + 1 / of_int (len b))))%float in
  (t, (2 * (1 - norm_cdf (PrimFloat.abs t)))%float).

Definition proportion_effectsize (prop1 prop2 : float) : float :=
  (2 * (arcsin (PrimFloat.sqrt prop1) - arcsin (PrimFloat.sqrt prop2)))%float.

(** Power of the two-sided two-sample z-test, or the sample size for a
    given power (upper tail only). *)
Definition zt_ind_solve_power (effect_size nobs1 alpha power : option float)
    (ratio : float) (alternative : string) : result float :=
  match effect_size, nobs1, alpha, power with
  | Some es, Some n, Some a, None =>
      let crit := norm_ppf (1 - a / 2)%float in
      let shift := (es * PrimFloat.sqrt (n * ratio / (1 + ratio)))%float in
      Ok (norm_cdf (shift - crit) + norm_cdf (PrimFloat.opp shift - crit))%float
  | Some es, None, Some a, Some pw =>
      let crit := norm_ppf (1 - a / 2)%float in
      let q := ((crit + norm_ppf pw) / es)%float in
      Ok (q * q * (1 + ratio) / ratio)%float
  | _, _, _, _ => Raise ValueError
  end.

End Sample.

(** Rows of a cohort with [s] conversions among [n] users, ids from [first]. *)
Definition cohort (g : group) (first : Z) (s n : nat) : list row :=
  zip_with (fun i c => Row i g c) (seqZ first (Z.of_nat n))
           (replicate s 1%Z ++ replicate (n - s) 0%Z).

(** A data frame with [sc] of [n] control users and [st] of [n] treatment
    users converted. *)
Definition frame (sc st n : nat) : list row :=
  cohort Control 1 sc n ++ cohort Treatment (Z.of_nat n + 1) st n.

(** An analyzer over a given data frame, before any stage has run. *)
Definition analyzer_of {F} `{Scalar F} (n : Z) (a : F) (d : list row)
  : ABTestAnalyzer F :=
  Analyzer (lit 12 100) (lit 145 1000) n a d ∅.

(** The analyzer [self] with another significance level. *)
Definition with_alpha {F} (a : F) (self : ABTestAnalyzer F)
  : ABTestAnalyzer F :=
  Analyzer (control_rate self) (treatment_rate self) (n_per_group self) a
           (df self) (results self).

(** What a caller observes of a stage: the results dictionary it leaves
    and the value it returns. *)
Definition observe {F A} (m : result (ABTestAnalyzer F * A))
  : result (gmap string (value F) * A) :=
  (fun sr => (results sr.1, sr.2)) <$> m.

(** The analyzer [self] once the two empirical rates are in its results. *)
Definition with_rates {F} (rc rt : F) (self : ABTestAnalyzer F)
  : ABTestAnalyzer F :=
  store "treatment_rate" (VNum rt) (store "control_rate" (VNum rc) self).

(** A rate the sampler accepts: a float in [[0,1]] (so not a NaN). *)
Definition valid_rate (p : float) : bool :=
  PrimFloat.leb 0 p && PrimFloat.leb p 1.

(** ** Artifacts

    The chart and the export act on the world outside the program (the
    file system, matplotlib's figures).  Its state is threaded through the
    calls: each returns its outcome and the state it leaves, also when it
    raises. *)

Definition io (W A : Type) : Type := W -> result A * W.

#[global] Instance io_ret {W} : MRet (io W) := fun _ a w => (Ok a, w).
#[global] Instance io_bind {W} : MBind (io W) := fun _ _ k m w =>
  match m w with
  | (Ok a, w) => k a w
  | (Raise e, w) => (Raise e, w)
  end.

(** A computation without outside effect. *)
Definition pure_io {W A} (m : result A) : io W A := fun w => (m, w).

(** [try: m  except Exception as e: print(...)]: the exception is reported
    and dropped. *)
Definition try_except {W A} (m : io W A) : io W unit := fun w =>
  match m w with
  | (Ok _, w) => (Ok (), w)
  | (Raise _, w) => (Ok (), w)
  end.

Section Artifacts.
Context {F : Type} `{Scalar F}.
Variable rng : Type.
Variable np_random_seed : Z -> rng.
Variable np_random_binomial : Z -> F -> Z -> rng -> result (list Z * rng).
Variable norm_cdf norm_ppf np_arcsin : F -> F.
Variable ttest_ind : list Z -> list Z -> F * F.
Variable proportion_effectsize : F -> F -> F.
Variable zt_ind_solve_power :
  option F -> option F -> option F -> option F -> F -> string -> result F.

Variable world : Type.
(** [os.makedirs(save_dir, exist_ok=True)] *)
Variable os_makedirs : string -> io world unit.
(** [sns.set_style('whitegrid')] and [plt.subplots(figsize=(10, 6))] *)
Variable plt_subplots : io world unit.
(** The bars of the given heights with their labels, [plt.savefig(path)]
    and [plt.close()]. *)
Variable plot_bars : list F -> string -> io world unit.
(** [pd.DataFrame([results]).to_csv(path, index=False)] *)
Variable to_csv : gmap string (value F) -> string -> io world unit.

Definition create_visualizations (self : ABTestAnalyzer F)
    (save_dir : string) : io world unit :=
  _ ← os_makedirs save_dir;
  _ ← plt_subplots;
  control_pct ← pure_io ((fun r => r * of_int 100)%S
                            <$> get_num self "control_rate");
  treatment_pct ← pure_io ((fun r => r * of_int 100)%S
                              <$> get_num self "treatment_rate");
  let rates := [control_pct; treatment_pct] in
  plot_bars rates (save_dir +:+ "/conversion_comparison.png").

(** [main], whole: the analysis of the default configuration, the chart
    (best effort) and the export; it returns the analyzer and its results. *)
Definition main_script (g : rng)
  : io world (ABTestAnalyzer F * gmap string (value F) * rng) :=
  '(analyzer, g) ← pure_io (__init__ rng np_random_seed np_random_binomial
                              (lit 12 100) (lit 145 1000) 5000 (lit 5 100) g);
  '(analyzer, _) ← pure_io (run_full_analysis norm_cdf norm_ppf np_arcsin
                              ttest_ind proportion_effectsize
                              zt_ind_solve_power analyzer);
  let results := results analyzer in
  _ ← try_except (create_visualizations analyzer "outputs");
  _ ← to_csv results "outputs/ab_test_results.csv";
  mret (analyzer, results, g).

End Artifacts.

(** The analyzer [self] with its results emptied. *)
Definition clear_results {F} (self : ABTestAnalyzer F) : ABTestAnalyzer F :=
  Analyzer (control_rate self) (treatment_rate self) (n_per_group self)
           (alpha self) (df self) ∅.

(** The analyzer [self] with the entries of [old] kept under its own. *)
Definition over {F} (old : gmap string (value F)) (self : ABTestAnalyzer F)
  : ABTestAnalyzer F :=
  Analyzer (control_rate self) (treatment_rate self) (n_per_group self)
           (alpha self) (df self) (results self ∪ old).

(** The data frame with the two group labels exchanged. *)
Definition swap_group (g : group) : group :=
  match g with Control => Treatment | Treatment => Control end.

Definition swap_groups (d : list row) : list row :=
  (fun r => Row (user_id r) (swap_group (grp r)) (converted r)) <$> d.

(** The analyzer [self] over the data frame with the groups exchanged. *)
Definition swap_analyzer {F} (self : ABTestAnalyzer F) : ABTestAnalyzer F :=
  Analyzer (control_rate self) (treatment_rate self) (n_per_group self)
           (alpha self) (swap_groups (df self)) (results self).

(** The full analysis with the sample library, and an analyzer over 20
    users per group with 2 against 12 conversions. *)
Definition sample_run (self : ABTestAnalyzer float)
  : result (ABTestAnalyzer float * recommendation) :=
  run_full_analysis Sample.norm_cdf Sample.norm_ppf Sample.arcsin
    Sample.ttest_ind Sample.proportion_effectsize Sample.zt_ind_solve_power
    self.

Definition sample_analyzer : ABTestAnalyzer float :=
  analyzer_of 20 (lit 5 100) (frame 2 12 20).

(** A binary64 value that is not below zero: a NaN, a zero, or positive. *)
Definition SFnot_neg (x : spec_float) : Prop :=
  match x with
  | S754_finite true _ _ | S754_infinity true => False
  | _ => True
  end.

(** A solver that finds no solution, and a file system that records the
    paths written, in order; both for running [main] on concrete inputs. *)
Definition no_solution
    (effect_size nobs1 alpha power : option float) (ratio : float)
    (alternative : string) : result float :=
  Raise ValueError.

Module Disk.

Definition world : Type := list string.

Definition makedirs (path : string) : io world unit :=
  fun w => (Ok (), w ++ [path]).

Definition subplots : io world unit := fun w => (Ok (), w).

Definition plot_bars (rates : list float) (path : string) : io world unit :=
  fun w => (Ok (), w ++ [path]).

End Disk.

(** * Properties *)

(** ** The results dictionary *)

Section Store.
Context {F : Type}.
Implicit Types (self : ABTestAnalyzer F) (k : string) (v : value F).

Lemma results_store k v self :
  results (store k v self) = <[k := v]> (results self).
Proof. reflexivity. Qed.

Lemma lookup_store_eq k v self : results (store k v self) !! k = Some v.
Proof. apply lookup_insert_eq. Qed.

Lemma lookup_store_ne k k' v self :
  k ≠ k' -> results (store k v self) !! k' = results self !! k'.
Proof. intros Hk. apply lookup_insert_ne, Hk. Qed.

Lemma get_num_lookup self k x :
  get_num self k = Ok x <-> results self !! k = Some (VNum x).
Proof.
  unfold get_num. destruct (results self !! k) as [[y| |]|]; split;
    intros Hx; try discriminate; congruence.
Qed.

Lemma get_pair_lookup self k lo hi :
  get_pair self k = Ok (lo, hi) <-> results self !! k = Some (VPair lo hi).
Proof.
  unfold get_pair. destruct (results self !! k) as [[| |]|]; split;
    intros Hx; try discriminate; congruence.
Qed.

Lemma get_num_store_ne k k' v self :
  k ≠ k' -> get_num (store k v self) k' = get_num self k'.
Proof. intros Hk. unfold get_num. now rewrite lookup_store_ne. Qed.

End Store.

(** A successful bind: both steps succeeded. *)
Lemma bind_Ok {A B} (m : result A) (k : A -> result B) (b : B) :
  (m ≫= k) = Ok b -> exists a, m = Ok a /\ k a = Ok b.
Proof. destruct m as [a|e]; [eauto | discriminate]. Qed.

Ltac bind_inv H :=
  let a := fresh "a" in
  let Ha := fresh "Ha" in
  apply bind_Ok in H; destruct H as (a & Ha & H).

Ltac keys := rewrite ?lookup_store_ne by discriminate.

(** ** What each stage stores *)

Section Stages.
Context {F : Type} `{Scalar F}.
Variable norm_cdf norm_ppf np_arcsin : F -> F.
Variable ttest_ind : list Z -> list Z -> F * F.
Variable proportion_effectsize : F -> F -> F.
Variable zt_ind_solve_power :
  option F -> option F -> option F -> option F -> F -> string -> result F.
Implicit Types self : ABTestAnalyzer F.

Lemma calculate_basic_metrics_Ok self s r :
  calculate_basic_metrics self = Ok (s, r) ->
  exists rc rt,
    loc_mean (df self) Control = Ok rc /\
    loc_mean (df self) Treatment = Ok rt /\
    s = store "relative_lift" (VNum (relative_lift_of rc rt))
          (store "absolute_lift" (VNum (absolute_lift_of rc rt))
          (store "treatment_rate" (VNum rt)
          (store "control_rate" (VNum rc) self))).
Proof.
  unfold calculate_basic_metrics. intros Hs.
  bind_inv Hs. bind_inv Hs. injection Hs as <- _. eauto.
Qed.

Lemma run_hypothesis_test_Ok self s z p :
  run_hypothesis_test norm_cdf ttest_ind self = Ok (s, (z, p)) ->
  exists se rt rc t,
    pooled_se_df (df self) = Ok se /\
    get_num self "treatment_rate" = Ok rt /\
    get_num self "control_rate" = Ok rc /\
    z = z_stat_of rc rt se /\
    p = p_value_of norm_cdf z /\
    s = store "t_pvalue" (VNum t.2) (store "t_stat" (VNum t.1)
          (store "p_value" (VNum p) (store "z_stat" (VNum z) self))).
Proof.
  unfold run_hypothesis_test. intros Hs.
  bind_inv Hs. bind_inv Hs. bind_inv Hs.
  destruct (ttest_ind _ _) as [t1 t2] eqn:Ht.
  injection Hs as <- <- <-. exists a, a0, a1, (t1, t2). auto 10.
Qed.

Lemma calculate_confidence_intervals_Ok self s cci tci dci :
  calculate_confidence_intervals norm_ppf self = Ok (s, (cci, tci, dci)) ->
  exists rt rc,
    get_num self "treatment_rate" = Ok rt /\
    get_num self "control_rate" = Ok rc /\
    cci = ci norm_ppf (sum_list (converted_of (df self) Control))
             (len (converted_of (df self) Control)) /\
    tci = ci norm_ppf (sum_list (converted_of (df self) Treatment))
             (len (converted_of (df self) Treatment)) /\
    dci = diff_ci_of rc rt (n_per_group self) /\
    s = store "diff_ci" (VPair dci.1 dci.2)
          (store "treatment_ci" (VPair tci.1 tci.2)
          (store "control_ci" (VPair cci.1 cci.2) self)).
Proof.
  unfold calculate_confidence_intervals. intros Hs.
  bind_inv Hs. bind_inv Hs. injection Hs as <- <- <- <-. eauto 10.
Qed.

Lemma calculate_effect_size_Ok self s h c :
  calculate_effect_size np_arcsin self = Ok (s, (h, c)) ->
  exists rt rc,
    get_num self "treatment_rate" = Ok rt /\
    get_num self "control_rate" = Ok rc /\
    h = cohens_h_of np_arcsin rc rt /\
    c = effect_category_of h /\
    s = store "effect_category" (VStr c) (store "cohens_h" (VNum h) self).
Proof.
  unfold calculate_effect_size. intros Hs.
  bind_inv Hs. bind_inv Hs. injection Hs as <- <- <-. eauto 10.
Qed.

Lemma calculate_power_Ok self s r :
  calculate_power proportion_effectsize zt_ind_solve_power self = Ok (s, r) ->
  s = store "required_n" (VNum r.2) (store "achieved_power" (VNum r.1) self).
Proof.
  unfold calculate_power. intros Hs.
  bind_inv Hs. bind_inv Hs. bind_inv Hs. bind_inv Hs.
  injection Hs as <- <-. reflexivity.
Qed.

Lemma calculate_business_impact_Ok self mv aov s r :
  calculate_business_impact self mv aov = Ok (s, r) ->
  exists rc rt,
    get_num self "control_rate" = Ok rc /\
    get_num self "treatment_rate" = Ok rt /\
    r = (mv * rt * aov - mv * rc * aov)%S /\
    s = store "additional_revenue" (VNum r)
          (store "additional_conversions" (VNum (mv * rt - mv * rc)%S)
          (store "avg_order_value" (VNum aov)
          (store "monthly_visitors" (VNum mv) self))).
Proof.
  unfold calculate_business_impact. intros Hs.
  bind_inv Hs. bind_inv Hs. injection Hs as <- <-. eauto 10.
Qed.

End Stages.

(** ** The decision rule *)

Section Recommendation.
Context {F : Type} `{Scalar F}.
Variable norm_cdf norm_ppf np_arcsin : F -> F.
Variable ttest_ind : list Z -> list Z -> F * F.
Variable proportion_effectsize : F -> F -> F.
Variable zt_ind_solve_power :
  option F -> option F -> option F -> option F -> F -> string -> result F.
Implicit Types self : ABTestAnalyzer F.

Lemma recommend_Ok b self v :
  recommend b self = Ok v ->
  forall lo hi, results self !! "diff_ci" = Some (VPair lo hi) ->
  v = if b && (of_int 0 <? lo)%S then Proceed else Insufficient.
Proof.
  unfold recommend. intros Hv lo hi Hd. destruct b; cbn [andb].
  - apply get_pair_lookup in Hd. rewrite Hd in Hv. now injection Hv as <-.
  - now injection Hv as <-.
Qed.

(** C1.  Whenever [run_full_analysis] completes, the results hold the
    p-value of the hypothesis test and the confidence interval of the
    difference, and the verdict is "proceed" exactly when the p-value is
    strictly below [alpha] and the lower end of that interval is strictly
    above zero; in every other case it is "insufficient evidence". *)
Theorem recommendation_rule self self' verdict :
  run_full_analysis norm_cdf norm_ppf np_arcsin ttest_ind
    proportion_effectsize zt_ind_solve_power self = Ok (self', verdict) ->
  exists p lo hi,
    results self' !! "p_value" = Some (VNum p) /\
    results self' !! "diff_ci" = Some (VPair lo hi) /\
    (verdict = Proceed <->
       (p <? alpha self)%S = true /\ (of_int 0 <? lo)%S = true) /\
    (verdict = Insufficient <->
       ~ ((p <? alpha self)%S = true /\ (of_int 0 <? lo)%S = true)).
Proof.
  unfold run_full_analysis. intros Hrun.
  bind_inv Hrun. destruct a as [s1 r1].
  bind_inv Hrun. destruct a as [s2 [z p2]].
  bind_inv Hrun. rename a into p.
  bind_inv Hrun. destruct a as [s3 [[cci tci] dci]].
  bind_inv Hrun. destruct a as [s4 [h c]].
  bind_inv Hrun. destruct a as [s5 r5].
  bind_inv Hrun. destruct a as [s6 r6].
  bind_inv Hrun. injection Hrun as <- <-.
  apply calculate_basic_metrics_Ok in Ha as (rc & rt & _ & _ & ->).
  apply run_hypothesis_test_Ok in Ha0 as (se & ? & ? & t & _ & _ & _ & _ & _ & ->).
  apply get_num_lookup in Ha1.
  apply calculate_confidence_intervals_Ok in Ha2 as (? & ? & _ & _ & _ & _ & _ & ->).
  apply calculate_effect_size_Ok in Ha3 as (? & ? & _ & _ & _ & _ & ->).
  apply calculate_power_Ok in Ha4 as ->.
  apply calculate_business_impact_Ok in Ha5 as (? & ? & _ & _ & _ & ->).
  exists p, dci.1, dci.2.
  assert (Hd : forall s' : ABTestAnalyzer F,
             results (store "diff_ci" (VPair dci.1 dci.2) s') !! "diff_ci"
             = Some (VPair dci.1 dci.2)) by (intros; apply lookup_store_eq).
  split; [|split].
  - keys. rewrite ?lookup_store_ne in Ha1 by discriminate. exact Ha1.
  - keys. apply Hd.
  - apply recommend_Ok with (lo := dci.1) (hi := dci.2) in Ha6;
      [|keys; apply Hd].
    cbn [alpha store] in *. subst a.
    destruct (p <? alpha self)%S, (of_int 0 <? dci.1)%S; cbn [andb];
      intuition congruence.
Qed.

End Recommendation.

(** A run of the whole pipeline on 20 users per group, 2 against 12
    conversions, with the sample library: the hypotheses of
    [recommendation_rule] hold there and the verdict is "proceed". *)
Lemma recommendation_rule_witness :
  exists self' p lo hi,
    run_full_analysis Sample.norm_cdf Sample.norm_ppf Sample.arcsin
      Sample.ttest_ind Sample.proportion_effectsize Sample.zt_ind_solve_power
      (analyzer_of 20 (lit 5 100) (frame 2 12 20)) = Ok (self', Proceed) /\
    results self' !! "p_value" = Some (VNum p) /\
    results self' !! "diff_ci" = Some (VPair lo hi) /\
    (p <? lit 5 100)%S = true /\ (of_int 0 <? lo)%S = true.
Proof.
  pose proof (recommendation_rule Sample.norm_cdf Sample.norm_ppf
    Sample.arcsin Sample.ttest_ind Sample.proportion_effectsize
    Sample.zt_ind_solve_power (analyzer_of 20 (lit 5 100) (frame 2 12 20)))
    as rule.
  destruct (run_full_analysis _ _ _ _ _ _ _) as [[s v]|e] eqn:E;
    [|vm_compute in E; discriminate E].
  destruct (rule s v eq_refl) as (p & lo & hi & Hp & Hd & Hiff & _).
  assert (v = Proceed) as Hv
    by (vm_compute in E; injection E as _ E; symmetry; exact E).
  exists s, p, lo, hi. rewrite <- Hv.
  split; [reflexivity|]. split; [exact Hp|]. split; [exact Hd|].
  apply Hiff, Hv.
Defined.

(** ** Reproducibility *)

Section Reproducible.
Context {F : Type} `{Scalar F}.
Variable rng : Type.
Variable np_random_seed : Z -> rng.
Variable np_random_binomial : Z -> F -> Z -> rng -> result (list Z * rng).
Variable norm_cdf norm_ppf np_arcsin : F -> F.
Variable ttest_ind : list Z -> list Z -> F * F.
Variable proportion_effectsize : F -> F -> F.
Variable zt_ind_solve_power :
  option F -> option F -> option F -> option F -> F -> string -> result F.

#[local] Abbreviation init :=
  (__init__ rng np_random_seed np_random_binomial).
#[local] Abbreviation run :=
  (run_full_analysis norm_cdf norm_ppf np_arcsin ttest_ind
     proportion_effectsize zt_ind_solve_power).

(** C9.  The constructor reseeds the global generator, so whatever state
    [g1] or [g2] the generator was in before, one configuration yields the
    same data frame (the same outcomes for both groups, bit for bit), the
    same generator state afterwards, and hence the same results and verdict
    of the full analysis; in particular two runs of [main] agree. *)
Theorem data_generation_deterministic (control_rate treatment_rate : F)
    (n_per_group : Z) (alpha : F) (g1 g2 : rng) :
  init control_rate treatment_rate n_per_group alpha g1
    = init control_rate treatment_rate n_per_group alpha g2
  /\ (init control_rate treatment_rate n_per_group alpha g1
        ≫= fun sg => run sg.1)
     = (init control_rate treatment_rate n_per_group alpha g2
          ≫= fun sg => run sg.1)
  /\ main rng np_random_seed np_random_binomial norm_cdf norm_ppf np_arcsin
       ttest_ind proportion_effectsize zt_ind_solve_power g1
     = main rng np_random_seed np_random_binomial norm_cdf norm_ppf np_arcsin
         ttest_ind proportion_effectsize zt_ind_solve_power g2.
Proof.
  assert (Hinit : init control_rate treatment_rate n_per_group alpha g1
                  = init control_rate treatment_rate n_per_group alpha g2).
  { unfold __init__. reflexivity. }
  split; [exact Hinit|]. split.
  - now rewrite Hinit.
  - unfold main, __init__. reflexivity.
Qed.

(** The data frame is the one the sampler draws from the state
    [np_random_seed 42]. *)
Lemma init_data control_rate treatment_rate n_per_group alpha g self g' :
  init control_rate treatment_rate n_per_group alpha g = Ok (self, g') ->
  _generate_data rng np_random_binomial control_rate treatment_rate
    n_per_group (np_random_seed 42) = Ok (df self, g').
Proof.
  unfold __init__. intros Hs. bind_inv Hs. destruct a as [d g''].
  injection Hs as <- <-. exact Ha.
Qed.

End Reproducible.

(** The reseeding is what makes the data reproducible: drawn from two
    different generator states, the cohorts differ (with the sample
    sampler, four users per group at rate 0.5), while the constructors
    called in those two states agree. *)
Lemma generation_depends_on_state :
  fst <$> _generate_data Sample.rng Sample.binomial 0.5%float 0.5%float 4 1%Z
  <> fst <$> _generate_data Sample.rng Sample.binomial 0.5%float 0.5%float 4
               2%Z
  /\ __init__ Sample.rng Sample.seed Sample.binomial 0.5%float 0.5%float 4
       0.05%float 1%Z
     = __init__ Sample.rng Sample.seed Sample.binomial 0.5%float 0.5%float 4
         0.05%float 2%Z.
Proof.
  split; [|reflexivity]. vm_compute. intros Heq. discriminate Heq.
Qed.

(** ** The significance level and the intervals *)

Section AlphaIndependence.
Context {F : Type} `{Scalar F}.
Variable norm_ppf : F -> F.

(** C10.  [calculate_confidence_intervals] does not read [alpha]: run on
    analyzers that differ only in their significance level, it returns the
    same three intervals and leaves the same results dictionary. *)
Theorem confidence_intervals_ignore_alpha (self : ABTestAnalyzer F)
    (alpha1 alpha2 : F) :
  observe (calculate_confidence_intervals norm_ppf (with_alpha alpha1 self))
  = observe (calculate_confidence_intervals norm_ppf (with_alpha alpha2 self)).
Proof.
  unfold observe, calculate_confidence_intervals, get_num.
  cbn [results df n_per_group with_alpha].
  destruct (results self !! "treatment_rate") as [[rt| |]|]; try reflexivity.
  cbn. destruct (results self !! "control_rate") as [[rc| |]|]; reflexivity.
Qed.

(** The critical values are fixed: 1.96 for the difference, and the
    quantile at [1 - (1 - 0.95)/2] for each cohort. *)
Lemma ci_level (successes n : Z) :
  let prop := (of_int successes / of_int n)%S in
  let margin :=
    (norm_ppf (of_int 1 - (of_int 1 - lit 95 100) / of_int 2)
       * fsqrt (prop * (of_int 1 - prop) / of_int n))%S in
  ci norm_ppf successes n = ((prop - margin)%S, (prop + margin)%S).
Proof. reflexivity. Qed.

End AlphaIndependence.

(** ** Binary64 facts *)

Lemma SFcompare_antisym x y :
  SFcompare y x = option_map CompOpp (SFcompare x y).
Proof.
  destruct x as [[]|[]| |[] m1 e1], y as [[]|[]| |[] m2 e2]; try reflexivity;
    cbn [SFcompare option_map]; f_equal;
    rewrite (Z.compare_antisym e1 e2);
    destruct (e1 ?= e2)%Z; cbn [CompOpp]; try reflexivity;
    change (Pos.compare_cont Eq m2 m1) with (m2 ?= m1)%positive;
    change (Pos.compare_cont Eq m1 m2) with (m1 ?= m2)%positive;
    rewrite (Pos.compare_antisym m1 m2); destruct (m1 ?= m2)%positive;
    reflexivity.
Qed.

(** [a <= x] excludes [x < a]. *)
Lemma float_leb_not_ltb (a x : float) :
  PrimFloat.leb a x = true -> PrimFloat.ltb x a = false.
Proof.
  rewrite leb_spec, ltb_spec. unfold SFleb, SFltb.
  rewrite (SFcompare_antisym (Prim2SF a) (Prim2SF x)).
  destruct (SFcompare (Prim2SF a) (Prim2SF x)) as [[]|]; cbn; congruence.
Qed.

(** A float in [[0,1]] is finite, and its difference with itself is [+0]. *)
Lemma float_sub_diag (r : float) :
  PrimFloat.leb 0 r = true -> PrimFloat.leb r 1 = true ->
  (r - r)%float = 0%float.
Proof.
  intros H0 H1. apply Prim2SF_inj. rewrite sub_spec.
  rewrite leb_spec in H0, H1.
  change (Prim2SF 0) with (S754_zero false) in *.
  change (Prim2SF 1) with (S754_finite false 4503599627370496 (-52)) in H1.
  destruct (Prim2SF r) as [[]|[]| |s m e]; try discriminate; try reflexivity.
  unfold SF64sub, SFsub. rewrite Z.sub_diag. reflexivity.
Qed.

Lemma float_zero_div (se : float) :
  PrimFloat.ltb 0 se = true -> (0 / se)%float = 0%float.
Proof.
  intros H0. apply Prim2SF_inj. rewrite div_spec. rewrite ltb_spec in H0.
  change (Prim2SF 0) with (S754_zero false) in *.
  destruct (Prim2SF se) as [[]|[]| |[] m e]; try discriminate; reflexivity.
Qed.

Lemma float_zero_div_zero (se : float) :
  PrimFloat.eqb se 0 = true -> (0 / se)%float = nan.
Proof.
  intros H0. apply Prim2SF_inj. rewrite div_spec.
  rewrite FloatAxioms.eqb_spec in H0.
  change (Prim2SF 0) with (S754_zero false) in *.
  destruct (Prim2SF se) as [[]|[]| |[] m e]; try discriminate; reflexivity.
Qed.

Lemma float_div_zero_pos (x : float) :
  PrimFloat.ltb 0 x = true -> (x / 0)%float = infinity.
Proof.
  intros H0. apply Prim2SF_inj. rewrite div_spec. rewrite ltb_spec in H0.
  change (Prim2SF 0) with (S754_zero false) in *.
  destruct (Prim2SF x) as [[]|[]| |[] m e]; try discriminate; reflexivity.
Qed.

Lemma float_div_zero_zero (x : float) :
  PrimFloat.eqb x 0 = true -> (x / 0)%float = nan.
Proof.
  intros H0. apply Prim2SF_inj. rewrite div_spec.
  rewrite FloatAxioms.eqb_spec in H0.
  change (Prim2SF 0) with (S754_zero false) in *.
  destruct (Prim2SF x) as [[]|[]| |[] m e]; try discriminate; reflexivity.
Qed.

(** The literals of the source, as the Python parser reads them. *)
Lemma literals_binary64 :
  (lit 2 10 : float) = 0.2%float /\ (lit 5 10 : float) = 0.5%float /\
  (lit 196 100 : float) = 1.96%float /\ (lit 95 100 : float) = 0.95%float /\
  (lit 8 10 : float) = 0.8%float /\ (lit 12 100 : float) = 0.12%float /\
  (lit 145 1000 : float) = 0.145%float /\ (lit 5 100 : float) = 0.05%float /\
  (of_int 0 : float) = 0%float /\ (of_int 1 : float) = 1%float /\
  (of_int 2 : float) = 2%float /\ (of_int 100 : float) = 100%float /\
  (of_int 75 : float) = 75%float /\ (of_int 100000 : float) = 100000%float.
Proof. repeat split; reflexivity. Qed.

(** ** Effect size *)

Section EffectSize.
Variable np_arcsin : float -> float.

Lemma effect_category_small (h : float) :
  PrimFloat.ltb (PrimFloat.abs h) 0.2 = true ->
  effect_category_of h = "Small".
Proof.
  unfold effect_category_of. change (lit 2 10) with 0.2%float.
  cbn [flt fabs float_scalar]. now intros ->.
Qed.

Lemma effect_category_medium (h : float) :
  PrimFloat.leb 0.2 (PrimFloat.abs h) = true ->
  PrimFloat.ltb (PrimFloat.abs h) 0.5 = true ->
  effect_category_of h = "Medium".
Proof.
  unfold effect_category_of.
  change (lit 2 10) with 0.2%float. change (lit 5 10) with 0.5%float.
  cbn [flt fabs float_scalar]. intros Hlo ->.
  now rewrite (float_leb_not_ltb _ _ Hlo).
Qed.

Lemma effect_category_large (h : float) :
  PrimFloat.leb 0.5 (PrimFloat.abs h) = true ->
  effect_category_of h = "Large".
Proof.
  unfold effect_category_of.
  change (lit 2 10) with 0.2%float. change (lit 5 10) with 0.5%float.
  cbn [flt fabs float_scalar]. intros Hlo.
  rewrite (float_leb_not_ltb _ _ Hlo).
  destruct (PrimFloat.ltb (PrimFloat.abs h) 0.2) eqn:Hs; [|reflexivity].
  assert (PrimFloat.ltb (PrimFloat.abs h) 0.5 = true) as Hm; [|
    now rewrite (float_leb_not_ltb _ _ Hlo) in Hm].
  revert Hs. rewrite !ltb_spec. unfold SFltb.
  change (Prim2SF 0.2) with (S754_finite false 7205759403792794 (-55)).
  change (Prim2SF 0.5) with (S754_finite false 4503599627370496 (-53)).
  destruct (Prim2SF (PrimFloat.abs h)) as [[]|[]| |[] m e]; try discriminate;
    try reflexivity.
  cbn [SFcompare].
  destruct (e ?= -55)%Z eqn:He.
  - apply Z.compare_eq in He. subst e. intros _. reflexivity.
  - change (e < -55)%Z in He.
    assert (e < -53)%Z as Hlt by lia.
    rewrite (Hlt : IntDef.Z.compare e (-53) = Lt). reflexivity.
  - intros Hs; discriminate Hs.
Qed.

(** C4.  The effect size stored and returned is Cohen's h,
    [2*(arcsin(sqrt(rate_t)) - arcsin(sqrt(rate_c)))], and its category
    follows [|h|] with each boundary in the higher category: below 0.2
    "Small", from 0.2 to below 0.5 "Medium", from 0.5 on "Large"; so [|h|]
    exactly 0.2 is "Medium" and exactly 0.5 is "Large". *)
Theorem effect_size_category (self : ABTestAnalyzer float) (rt rc : float) :
  get_num self "treatment_rate" = Ok rt ->
  get_num self "control_rate" = Ok rc ->
  let h := (2 * (np_arcsin (PrimFloat.sqrt rt)
                 - np_arcsin (PrimFloat.sqrt rc)))%float in
  exists self' c,
    calculate_effect_size np_arcsin self = Ok (self', (h, c)) /\
    results self' !! "cohens_h" = Some (VNum h) /\
    results self' !! "effect_category" = Some (VStr c) /\
    (PrimFloat.ltb (PrimFloat.abs h) 0.2 = true -> c = "Small") /\
    (PrimFloat.leb 0.2 (PrimFloat.abs h) = true ->
     PrimFloat.ltb (PrimFloat.abs h) 0.5 = true -> c = "Medium") /\
    (PrimFloat.leb 0.5 (PrimFloat.abs h) = true -> c = "Large") /\
    (PrimFloat.abs h = 0.2%float -> c = "Medium") /\
    (PrimFloat.abs h = 0.5%float -> c = "Large").
Proof.
  intros Ht Hc h.
  exists (store "effect_category" (VStr (effect_category_of h))
            (store "cohens_h" (VNum h) self)), (effect_category_of h).
  split; [|split; [|split]].
  - unfold calculate_effect_size. rewrite Ht, Hc. reflexivity.
  - keys. apply lookup_store_eq.
  - apply lookup_store_eq.
  - split; [apply effect_category_small|].
    split; [apply effect_category_medium|].
    split; [apply effect_category_large|].
    split; intros Hb.
    + apply effect_category_medium; rewrite Hb; reflexivity.
    + apply effect_category_large; rewrite Hb; reflexivity.
Qed.

End EffectSize.

(** On rates 0.1 and 0.6 the sample arcsine gives [|h|] above 0.5, and the
    category is "Large". *)
Lemma effect_size_category_witness :
  exists self' h,
    calculate_effect_size Sample.arcsin
      (with_rates 0.1%float 0.6%float
         (analyzer_of 10 0.05%float (frame 1 6 10)))
    = Ok (self', (h, "Large")) /\
    PrimFloat.leb 0.5 (PrimFloat.abs h) = true.
Proof.
  destruct (effect_size_category Sample.arcsin
              (with_rates 0.1%float 0.6%float
                 (analyzer_of 10 0.05%float (frame 1 6 10)))
              0.6%float 0.1%float eq_refl eq_refl)
    as (s' & c & Hrun & _ & _ & _ & _ & Hlarge & _).
  exists s'. eexists. split.
  - rewrite Hrun. f_equal. f_equal. f_equal. apply Hlarge.
    vm_compute. reflexivity.
  - vm_compute. reflexivity.
Defined.

(** ** The z-test *)

Section ZTest.
Variable norm_cdf : float -> float.
Variable ttest_ind : list Z -> list Z -> float * float.

(** C8.  With both cohorts non-empty, [run_hypothesis_test] returns and
    stores [z = (rate_t - rate_c)/se] for the pooled standard error [se]
    and the two-tailed p-value [2*(1 - cdf |z|)].  Consequently, when the two
    empirical rates are the same (a rate lies in [[0,1]]), the pooled
    standard error is positive and [cdf 0 = 0.5], the z-statistic is 0 and
    the p-value is 1. *)
Theorem z_test (self : ABTestAnalyzer float) (rt rc : float) :
  get_num self "treatment_rate" = Ok rt ->
  get_num self "control_rate" = Ok rc ->
  len (converted_of (df self) Control) <> 0%Z ->
  len (converted_of (df self) Treatment) <> 0%Z ->
  let control_data := converted_of (df self) Control in
  let treatment_data := converted_of (df self) Treatment in
  let pooled_prob :=
    (of_int (sum_list control_data + sum_list treatment_data)
       / of_int (len control_data + len treatment_data))%float in
  let se := PrimFloat.sqrt
              (pooled_prob * (1 - pooled_prob)
                 * (1 / of_int (len control_data)
                      + 1 / of_int (len treatment_data)))%float in
  let z := ((rt - rc) / se)%float in
  let p := (2 * (1 - norm_cdf (PrimFloat.abs z)))%float in
  exists self',
    run_hypothesis_test norm_cdf ttest_ind self = Ok (self', (z, p)) /\
    results self' !! "z_stat" = Some (VNum z) /\
    results self' !! "p_value" = Some (VNum p) /\
    (rt = rc ->
     PrimFloat.leb 0 rc = true -> PrimFloat.leb rc 1 = true ->
     PrimFloat.ltb 0 se = true ->
     norm_cdf 0%float = 0.5%float ->
     z = 0%float /\ p = 1%float).
Proof.
  intros Ht Hc Hnc Hnt control_data treatment_data pooled_prob se z p.
  destruct (ttest_ind treatment_data control_data) as [t1 t2] eqn:Htt.
  exists (store "t_pvalue" (VNum t2) (store "t_stat" (VNum t1)
           (store "p_value" (VNum p) (store "z_stat" (VNum z) self)))).
  split; [|split; [|split]].
  - unfold run_hypothesis_test, pooled_se_df, int_truediv.
    rewrite !decide_False by assumption. cbn [mbind result_bind mret result_ret].
    rewrite Ht, Hc. cbn [mbind result_bind mret result_ret].
    fold control_data treatment_data. rewrite Htt. reflexivity.
  - keys. apply lookup_store_eq.
  - keys. apply lookup_store_eq.
  - intros -> H0 H1 Hse Hcdf.
    assert (z = 0%float) as Hz.
    { unfold z. rewrite (float_sub_diag rc H0 H1). apply float_zero_div, Hse. }
    split; [exact Hz|]. unfold p. rewrite Hz.
    change (PrimFloat.abs 0) with 0%float. rewrite Hcdf. reflexivity.
Qed.

End ZTest.

(** Two cohorts of 10 users with 3 conversions each, with the sample
    library: after the first stage both rates are 0.3, z is 0 and the
    p-value is 1. *)
Lemma z_test_witness :
  exists s1 summary s2,
    calculate_basic_metrics (analyzer_of 10 0.05%float (frame 3 3 10))
    = Ok (s1, summary) /\
    results s1 !! "control_rate" = Some (VNum 0.3%float) /\
    results s1 !! "treatment_rate" = Some (VNum 0.3%float) /\
    run_hypothesis_test Sample.norm_cdf Sample.ttest_ind s1
    = Ok (s2, (0%float, 1%float)).
Proof.
  eexists _, _.
  assert (Hs1 : calculate_basic_metrics
                  (analyzer_of 10 0.05%float (frame 3 3 10))
                = Ok (store "relative_lift" (VNum 0%float)
                        (store "absolute_lift" (VNum 0%float)
                           (with_rates 0.3%float 0.3%float
                              (analyzer_of 10 0.05%float (frame 3 3 10)))),
                      groupby_agg (frame 3 3 10)))
    by reflexivity.
  pose proof (z_test Sample.norm_cdf Sample.ttest_ind
                (store "relative_lift" (VNum 0%float)
                   (store "absolute_lift" (VNum 0%float)
                      (with_rates 0.3%float 0.3%float
                         (analyzer_of 10 0.05%float (frame 3 3 10)))))
                0.3%float 0.3%float eq_refl eq_refl) as T.
  destruct T as (s' & Hrun & _ & _ & Hzero);
    [vm_compute; discriminate | vm_compute; discriminate |].
  destruct Hzero as [Hz Hp];
    [reflexivity | vm_compute; reflexivity | vm_compute; reflexivity
    | vm_compute; reflexivity | vm_compute; reflexivity |].
  exists s'. split; [exact Hs1|]. split; [reflexivity|].
  split; [reflexivity|]. rewrite Hrun, Hp, Hz. reflexivity.
Defined.

(** ** Degenerate statistics *)

Lemma float_nonneg_not_pos (x : float) :
  PrimFloat.leb 0 x = true -> PrimFloat.ltb 0 x = false ->
  PrimFloat.eqb x 0 = true.
Proof.
  rewrite leb_spec, ltb_spec, FloatAxioms.eqb_spec. unfold SFleb, SFltb, SFeqb.
  rewrite (SFcompare_antisym (Prim2SF 0) (Prim2SF x)).
  destruct (SFcompare (Prim2SF 0) (Prim2SF x)) as [[]|]; cbn; congruence.
Qed.

Lemma relative_lift_zero_control (rt : float) :
  PrimFloat.leb 0 rt = true ->
  relative_lift_of 0%float rt
  = if PrimFloat.ltb 0 rt then infinity else nan.
Proof.
  intros Hrt. unfold relative_lift_of. cbn [fmul fsub fdiv float_scalar].
  destruct (PrimFloat.ltb 0 rt) eqn:Hpos.
  - rewrite (float_div_zero_pos rt Hpos). reflexivity.
  - rewrite (float_div_zero_zero rt (float_nonneg_not_pos rt Hrt Hpos)).
    reflexivity.
Qed.

Section Degenerate.
Variable norm_cdf : float -> float.
Variable ttest_ind : list Z -> list Z -> float * float.

(** C2, as the code has it.  A zero empirical control rate raises nothing:
    [calculate_basic_metrics] completes and stores the relative lift
    [+infinity] (positive treatment rate) or NaN (zero treatment rate).
    Equal rates with a zero pooled standard error raise nothing either:
    [run_hypothesis_test] completes and stores the z-statistic NaN and the
    p-value [2*(1 - cdf NaN)].  No error and no marker is attached. *)
Theorem degenerate_statistics_propagate :
  (forall (self : ABTestAnalyzer float) (rt : float),
     loc_mean (df self) Control = Ok 0%float ->
     loc_mean (df self) Treatment = Ok rt ->
     PrimFloat.leb 0 rt = true ->
     exists self' summary,
       calculate_basic_metrics self = Ok (self', summary) /\
       results self' !! "relative_lift"
       = Some (VNum (if PrimFloat.ltb 0 rt then infinity else nan)))
  /\
  (forall (self : ABTestAnalyzer float) (r se : float),
     get_num self "treatment_rate" = Ok r ->
     get_num self "control_rate" = Ok r ->
     PrimFloat.leb 0 r = true -> PrimFloat.leb r 1 = true ->
     pooled_se_df (df self) = Ok se ->
     PrimFloat.eqb se 0 = true ->
     exists self',
       run_hypothesis_test norm_cdf ttest_ind self
       = Ok (self', (nan, (2 * (1 - norm_cdf nan))%float)) /\
       results self' !! "z_stat" = Some (VNum nan) /\
       results self' !! "p_value"
       = Some (VNum (2 * (1 - norm_cdf nan))%float)).
Proof.
  split.
  - intros self rt Hc Ht Hrt.
    eexists _, _. split.
    + unfold calculate_basic_metrics. rewrite Hc, Ht. reflexivity.
    + rewrite lookup_store_eq, (relative_lift_zero_control rt Hrt).
      reflexivity.
  - intros self r se Ht Hc H0 H1 Hse Hzero.
    destruct (ttest_ind (converted_of (df self) Treatment)
                (converted_of (df self) Control)) as [t1 t2] eqn:Htt.
    assert (z_stat_of r r se = nan) as Hz.
    { unfold z_stat_of. cbn [fsub fdiv float_scalar].
      rewrite (float_sub_diag r H0 H1). apply float_zero_div_zero, Hzero. }
    exists (store "t_pvalue" (VNum t2) (store "t_stat" (VNum t1)
             (store "p_value" (VNum (2 * (1 - norm_cdf nan))%float)
             (store "z_stat" (VNum nan) self)))).
    split; [|split].
    + unfold run_hypothesis_test. rewrite Hse.
      cbn [mbind result_bind mret result_ret]. rewrite Ht, Hc.
      cbn [mbind result_bind mret result_ret]. rewrite Htt, Hz. reflexivity.
    + keys. apply lookup_store_eq.
    + keys. apply lookup_store_eq.
Qed.

End Degenerate.

(** The two cases on cohorts of three users: no control conversion against
    one treatment conversion, and no conversion at all. *)
Lemma degenerate_statistics_propagate_witness :
  (exists self' summary,
     calculate_basic_metrics (analyzer_of 3 0.05%float (frame 0 1 3))
     = Ok (self', summary) /\
     results self' !! "relative_lift" = Some (VNum infinity))
  /\
  (exists self',
     run_hypothesis_test Sample.norm_cdf Sample.ttest_ind
       (with_rates 0%float 0%float (analyzer_of 3 0.05%float (frame 0 0 3)))
     = Ok (self', (nan, nan))).
Proof.
  destruct (degenerate_statistics_propagate Sample.norm_cdf Sample.ttest_ind)
    as [Hlift Hz].
  split.
  - destruct (Hlift (analyzer_of 3 0.05%float (frame 0 1 3))
                (of_int 1 / of_int 3)%float)
      as (s' & summ & Hrun & Hres);
      [reflexivity | reflexivity | vm_compute; reflexivity |].
    exists s', summ. split; [exact Hrun | exact Hres].
  - destruct (Hz (with_rates 0%float 0%float
                    (analyzer_of 3 0.05%float (frame 0 0 3)))
                0%float 0%float)
      as (s' & Hrun & _);
      [reflexivity | reflexivity | vm_compute; reflexivity
      | vm_compute; reflexivity | vm_compute; reflexivity
      | vm_compute; reflexivity |].
    exists s'. rewrite Hrun. reflexivity.
Defined.

(** C2, as stated, fails: on three users per group with no control
    conversion the first stage succeeds and stores an infinite relative
    lift, and with no conversion at all the first two stages succeed and
    store NaN for the relative lift, the z-statistic and the p-value. *)
Lemma degenerate_statistics_silent :
  (exists self' summary,
     calculate_basic_metrics (analyzer_of 3 0.05%float (frame 0 1 3))
     = Ok (self', summary) /\
     results self' !! "control_rate" = Some (VNum 0%float) /\
     results self' !! "relative_lift" = Some (VNum infinity))
  /\
  (exists self' z_p,
     (calculate_basic_metrics (analyzer_of 3 0.05%float (frame 0 0 3))
        ≫= fun sr => run_hypothesis_test Sample.norm_cdf Sample.ttest_ind sr.1)
     = Ok (self', z_p) /\
     results self' !! "relative_lift" = Some (VNum nan) /\
     results self' !! "z_stat" = Some (VNum nan) /\
     results self' !! "p_value" = Some (VNum nan)).
Proof.
  split.
  - eexists _, _. split; [reflexivity|]. split; vm_compute; reflexivity.
  - eexists _, _. split; [vm_compute; reflexivity|].
    repeat split; vm_compute; reflexivity.
Qed.

(** ** Construction *)

Lemma Sample_draws_length (p : float) (k : nat) (g : Sample.rng) :
  length (Sample.draws p k g).1 = k.
Proof.
  revert g. induction k as [|k IH]; intros g; [reflexivity|].
  cbn [Sample.draws]. specialize (IH (Sample.next g)).
  destruct (Sample.draws p k (Sample.next g)) as [xs g2]. cbn in *.
  now rewrite IH.
Qed.

Section Construction.
Variable rng : Type.
Variable np_random_seed : Z -> rng.
Variable np_random_binomial :
  Z -> float -> Z -> rng -> result (list Z * rng).

#[local] Abbreviation init :=
  (__init__ rng np_random_seed np_random_binomial).
#[local] Abbreviation generate :=
  (_generate_data rng np_random_binomial).

(** What numpy documents of [binomial(1, p, size)]: a [ValueError] when [p]
    is below 0, above 1 or a NaN, or when [size] is negative; [size] draws
    otherwise. *)
Hypothesis binomial_rejects : forall p size g,
  valid_rate p = false \/ (size < 0)%Z ->
  np_random_binomial 1 p size g = Raise ValueError.
Hypothesis binomial_draws : forall p size g,
  valid_rate p = true -> (0 <= size)%Z ->
  exists l g', np_random_binomial 1 p size g = Ok (l, g')
               /\ length l = Z.to_nat size.

(** The constructor has no check of its own: its outcome is the outcome
    of data generation from the state [np_random_seed 42]. *)
Lemma init_is_generate control_rate treatment_rate n_per_group alpha g :
  init control_rate treatment_rate n_per_group alpha g
  = (fun dg => (Analyzer control_rate treatment_rate n_per_group alpha dg.1 ∅,
                dg.2))
      <$> generate control_rate treatment_rate n_per_group (np_random_seed 42).
Proof.
  unfold __init__.
  destruct (_generate_data _ _ _ _ _ _) as [[d g']|e]; reflexivity.
Qed.

(** C3, as the code has it.  Every configuration reaches data generation.
    A rate outside [[0,1]] or a negative [n_per_group] is rejected there, by
    the sampler's [ValueError]; [n_per_group = 0] with valid rates is not
    rejected: the constructor returns an analyzer with an empty data frame,
    whose first stage then fails on the missing group. *)
Theorem constructor_validates_nothing (control_rate treatment_rate : float)
    (n_per_group : Z) (alpha : float) (g : rng) :
  init control_rate treatment_rate n_per_group alpha g
  = (fun dg => (Analyzer control_rate treatment_rate n_per_group alpha dg.1 ∅,
                dg.2))
      <$> generate control_rate treatment_rate n_per_group (np_random_seed 42)
  /\
  (valid_rate control_rate = false \/ valid_rate treatment_rate = false
     \/ (n_per_group < 0)%Z ->
   generate control_rate treatment_rate n_per_group (np_random_seed 42)
   = Raise ValueError /\
   init control_rate treatment_rate n_per_group alpha g = Raise ValueError)
  /\
  (valid_rate control_rate = true -> valid_rate treatment_rate = true ->
   n_per_group = 0%Z ->
   exists g',
     init control_rate treatment_rate n_per_group alpha g
     = Ok (Analyzer control_rate treatment_rate 0 alpha [] ∅, g') /\
     calculate_basic_metrics
       (Analyzer control_rate treatment_rate 0 alpha [] ∅)
     = Raise (KeyError "Control")).
Proof.
  split; [apply init_is_generate|]. split.
  - intros Hbad.
    assert (generate control_rate treatment_rate n_per_group
              (np_random_seed 42) = Raise ValueError) as Hgen.
    { unfold _generate_data.
      destruct (valid_rate control_rate) eqn:Hc.
      - destruct (Z.ltb_spec n_per_group 0) as [Hn|Hn].
        + rewrite binomial_rejects by (right; exact Hn). reflexivity.
        + destruct (binomial_draws control_rate n_per_group
                      (np_random_seed 42) Hc Hn) as (l & g' & -> & _).
          cbn [mbind result_bind].
          rewrite binomial_rejects; [reflexivity|].
          destruct Hbad as [Hb|[Hb|Hb]]; [discriminate | now left | lia].
      - rewrite binomial_rejects by (left; exact Hc). reflexivity. }
    split; [exact Hgen|]. rewrite init_is_generate, Hgen. reflexivity.
  - intros Hc Ht ->.
    destruct (binomial_draws control_rate 0 (np_random_seed 42) Hc
                (Z.le_refl 0)) as (lc & g1 & Hdc & Hlc).
    destruct (binomial_draws treatment_rate 0 g1 Ht (Z.le_refl 0))
      as (lt & g2 & Hdt & Hlt).
    destruct lc; [|discriminate]. destruct lt; [|discriminate].
    exists g2. split; [|reflexivity].
    unfold __init__, _generate_data. rewrite Hdc. cbn [mbind result_bind].
    rewrite Hdt. reflexivity.
Qed.

End Construction.

Lemma Sample_binomial_rejects p size g :
  valid_rate p = false \/ (size < 0)%Z ->
  Sample.binomial 1 p size g = Raise ValueError.
Proof.
  unfold Sample.binomial, valid_rate. intros [->|Hn]; [reflexivity|].
  destruct (_ && _); [cbn [negb]|reflexivity].
  apply Z.ltb_lt in Hn. now rewrite Hn.
Qed.

Lemma Sample_binomial_draws p size g :
  valid_rate p = true -> (0 <= size)%Z ->
  exists l g', Sample.binomial 1 p size g = Ok (l, g')
               /\ length l = Z.to_nat size.
Proof.
  unfold Sample.binomial, valid_rate. intros -> Hn. cbn [negb].
  apply Z.ltb_ge in Hn. rewrite Hn. cbn.
  exists (Sample.draws p (Z.to_nat size) g).1,
         (Sample.draws p (Z.to_nat size) g).2.
  split; [now destruct (Sample.draws _ _ _)|apply Sample_draws_length].
Qed.

(** With the sample sampler: a control rate of 1.5 is rejected by the
    sampler, and the default rates with no user at all are accepted. *)
Lemma constructor_validates_nothing_witness :
  __init__ Sample.rng Sample.seed Sample.binomial
    1.5%float 0.145%float 5000 0.05%float 0%Z = Raise ValueError
  /\
  exists g',
    __init__ Sample.rng Sample.seed Sample.binomial
      0.12%float 0.145%float 0 0.05%float 0%Z
    = Ok (Analyzer 0.12%float 0.145%float 0 0.05%float [] ∅, g').
Proof.
  split.
  - destruct (constructor_validates_nothing Sample.rng Sample.seed
                Sample.binomial Sample_binomial_rejects
                Sample_binomial_draws 1.5%float 0.145%float 5000 0.05%float
                0%Z) as (_ & Hbad & _).
    apply Hbad. left. vm_compute. reflexivity.
  - destruct (constructor_validates_nothing Sample.rng Sample.seed
                Sample.binomial Sample_binomial_rejects
                Sample_binomial_draws 0.12%float 0.145%float 0 0.05%float
                0%Z) as (_ & _ & Hzero).
    destruct Hzero as (g' & Hinit & _);
      [vm_compute; reflexivity | vm_compute; reflexivity | reflexivity |].
    exists g'. exact Hinit.
Defined.

(** C3, as stated, fails: a configuration with [n_per_group = 0] is not
    rejected.  The constructor succeeds, with an empty data frame. *)
Lemma zero_sample_size_accepted :
  __init__ Sample.rng Sample.seed Sample.binomial
    0.12%float 0.145%float 0 0.05%float 0%Z
  = Ok (Analyzer 0.12%float 0.145%float 0 0.05%float [] ∅, Sample.seed 42).
Proof. vm_compute. reflexivity. Qed.

(** ** Algebraic identities, in exact arithmetic *)

Section Exact.
Implicit Types self : ABTestAnalyzer R.
#[local] Open Scope R_scope.

(** C5, in exact arithmetic.  For a nonzero control rate the first stage
    stores [absolute_lift = rate_t - rate_c] and
    [relative_lift = (rate_t/rate_c - 1) * 100], and over the reals the
    relative lift gives back the treatment rate:
    [rate_t = rate_c * (1 + relative_lift/100)]. *)
Theorem relative_lift_round_trip self (rc rt : R) :
  loc_mean (df self) Control = Ok rc ->
  loc_mean (df self) Treatment = Ok rt ->
  rc <> 0 ->
  exists self' summary,
    calculate_basic_metrics self = Ok (self', summary) /\
    results self' !! "absolute_lift" = Some (VNum (rt - rc)) /\
    results self' !! "relative_lift" = Some (VNum ((rt / rc - 1) * 100)) /\
    rt = rc * (1 + (rt / rc - 1) * 100 / 100).
Proof.
  intros Hc Ht Hrc. eexists _, _. split; [|split; [|split]].
  - unfold calculate_basic_metrics. rewrite Hc, Ht. reflexivity.
  - keys. apply lookup_store_eq.
  - apply lookup_store_eq.
  - field. exact Hrc.
Qed.

(** C6, in exact arithmetic.  Each of the three intervals is symmetric
    about its point estimate: the cohort's rate [successes/n] for the two
    Wald intervals, the difference of the rates for the third. *)
Theorem confidence_intervals_symmetric (norm_ppf : R -> R) self (rt rc : R) :
  get_num self "treatment_rate" = Ok rt ->
  get_num self "control_rate" = Ok rc ->
  let control_data := converted_of (df self) Control in
  let treatment_data := converted_of (df self) Treatment in
  let prop_c := IZR (sum_list control_data) / IZR (len control_data) in
  let prop_t := IZR (sum_list treatment_data) / IZR (len treatment_data) in
  exists self' control_ci treatment_ci diff_ci,
    calculate_confidence_intervals norm_ppf self
    = Ok (self', (control_ci, treatment_ci, diff_ci)) /\
    results self' !! "control_ci" = Some (VPair control_ci.1 control_ci.2) /\
    results self' !! "treatment_ci"
    = Some (VPair treatment_ci.1 treatment_ci.2) /\
    results self' !! "diff_ci" = Some (VPair diff_ci.1 diff_ci.2) /\
    control_ci.1 = 2 * prop_c - control_ci.2 /\
    treatment_ci.1 = 2 * prop_t - treatment_ci.2 /\
    diff_ci.1 = 2 * (rt - rc) - diff_ci.2.
Proof.
  intros Ht Hc control_data treatment_data prop_c prop_t.
  eexists _, _, _, _. split; [|split; [|split; [|split]]].
  - unfold calculate_confidence_intervals. rewrite Ht, Hc. reflexivity.
  - keys. apply lookup_store_eq.
  - keys. apply lookup_store_eq.
  - apply lookup_store_eq.
  - unfold ci, diff_ci_of, prop_c, prop_t, control_data, treatment_data.
    cbn [fst snd fadd fsub fmul fdiv of_int real_scalar].
    repeat split; ring.
Qed.

(** C7, in exact arithmetic.  The business-impact stage returns and stores
    [additional_revenue = additional_conversions * avg_order_value] with
    [additional_conversions = monthly_visitors * (rate_t - rate_c)]: the
    differences of projected and current totals the code takes are equal
    to these over the reals.  With 100000 visitors, rates 0.10 and 0.12 and
    an order value of 50 the additional revenue is 100000. *)
Theorem business_impact self (monthly_visitors avg_order_value rc rt : R) :
  get_num self "control_rate" = Ok rc ->
  get_num self "treatment_rate" = Ok rt ->
  let additional_conversions := monthly_visitors * (rt - rc) in
  let additional_revenue := additional_conversions * avg_order_value in
  exists self',
    calculate_business_impact self monthly_visitors avg_order_value
    = Ok (self', additional_revenue) /\
    results self' !! "additional_conversions"
    = Some (VNum additional_conversions) /\
    results self' !! "additional_revenue" = Some (VNum additional_revenue) /\
    (monthly_visitors = 100000 -> rc = 10 / 100 -> rt = 12 / 100 ->
     avg_order_value = 50 -> additional_revenue = 100000).
Proof.
  intros Hc Ht ac ar.
  assert (monthly_visitors * rt - monthly_visitors * rc = ac) as Hac
    by (unfold ac; ring).
  assert (monthly_visitors * rt * avg_order_value
          - monthly_visitors * rc * avg_order_value = ar) as Har
    by (unfold ar, ac; ring).
  eexists. split; [|split; [|split]].
  - unfold calculate_business_impact. rewrite Hc, Ht.
    cbn [mbind result_bind mret result_ret fsub fmul real_scalar].
    rewrite Hac, Har. reflexivity.
  - keys. apply lookup_store_eq.
  - apply lookup_store_eq.
  - intros -> -> -> ->. unfold ar, ac. field.
Qed.

End Exact.

(** One conversion of five against three of five, over the reals. *)
Lemma relative_lift_round_trip_witness :
  exists self' summary,
    calculate_basic_metrics
      (analyzer_of 5 (5 / 100)%R (frame 1 3 5)) = Ok (self', summary) /\
    results self' !! "relative_lift"
    = Some (VNum ((3 / 5 / (1 / 5) - 1) * 100)%R) /\
    (3 / 5 = 1 / 5 * (1 + (3 / 5 / (1 / 5) - 1) * 100 / 100))%R.
Proof.
  destruct (relative_lift_round_trip
              (analyzer_of 5 (5 / 100)%R (frame 1 3 5)) (1 / 5)%R (3 / 5)%R)
    as (s' & summ & Hrun & _ & Hrel & Hback);
    [reflexivity | reflexivity | lra |].
  exists s', summ. split; [exact Hrun|]. split; [exact Hrel | exact Hback].
Defined.

(** Rates 3/10 and 5/10 on ten users per group, over the reals, with a
    quantile function constant at 1.96. *)
Lemma confidence_intervals_symmetric_witness :
  exists self' control_ci treatment_ci diff_ci,
    calculate_confidence_intervals (fun _ => (196 / 100)%R)
      (with_rates (3 / 10)%R (5 / 10)%R
         (analyzer_of 10 (5 / 100)%R (frame 3 5 10)))
    = Ok (self', (control_ci, treatment_ci, diff_ci)) /\
    (diff_ci.1 = 2 * (5 / 10 - 3 / 10) - diff_ci.2)%R.
Proof.
  destruct (confidence_intervals_symmetric (fun _ => (196 / 100)%R)
              (with_rates (3 / 10)%R (5 / 10)%R
                 (analyzer_of 10 (5 / 100)%R (frame 3 5 10)))
              (5 / 10)%R (3 / 10)%R eq_refl eq_refl)
    as (s' & cci & tci & dci & Hrun & _ & _ & _ & _ & _ & Hsym).
  exists s', cci, tci, dci. split; [exact Hrun | exact Hsym].
Defined.

(** The example of the documentation, over the reals. *)
Lemma business_impact_witness :
  exists self',
    calculate_business_impact
      (with_rates (10 / 100)%R (12 / 100)%R
         (analyzer_of 100 (5 / 100)%R (frame 10 12 100)))
      100000%R 50%R
    = Ok (self', 100000%R).
Proof.
  destruct (business_impact
              (with_rates (10 / 100)%R (12 / 100)%R
                 (analyzer_of 100 (5 / 100)%R (frame 10 12 100)))
              100000%R 50%R (10 / 100)%R (12 / 100)%R eq_refl eq_refl)
    as (s' & Hrun & _ & _ & Hex).
  exists s'. rewrite Hrun, Hex; reflexivity.
Defined.

(** ** The same identities in binary64 *)

(** C5, as stated, fails in binary64: with one conversion of five against
    three of five the rates are 0.2 and 0.6, the relative lift stored is
    199.99999999999994, and [rate_c * (1 + relative_lift/100)] is
    0.5999999999999999, not the treatment rate. *)
Lemma relative_lift_round_trip_binary64 :
  exists self' summary,
    calculate_basic_metrics (analyzer_of 5 0.05%float (frame 1 3 5))
    = Ok (self', summary) /\
    results self' !! "control_rate" = Some (VNum 0.2%float) /\
    results self' !! "treatment_rate" = Some (VNum 0.6%float) /\
    results self' !! "relative_lift"
    = Some (VNum 199.99999999999994%float) /\
    (0.2 * (1 + 199.99999999999994 / 100))%float = 0.5999999999999999%float /\
    PrimFloat.eqb (0.2 * (1 + 199.99999999999994 / 100))%float 0.6%float
    = false.
Proof.
  eexists _, _. split; [reflexivity|].
  repeat split; vm_compute; reflexivity.
Qed.

(** C6, as stated, fails in binary64: with no conversion of two against one
    of two, the interval of the difference 0.5 has the lower end
    -0.19296464556281656 and the upper end 1.1929646455628165, and
    [2*0.5 - upper] is -0.19296464556281645. *)
Lemma confidence_interval_symmetry_binary64 :
  exists self' control_ci treatment_ci,
    (calculate_basic_metrics (analyzer_of 2 0.05%float (frame 0 1 2))
       ≫= fun sr => calculate_confidence_intervals Sample.norm_ppf sr.1)
    = Ok (self', (control_ci, treatment_ci,
                  ((-0.19296464556281656)%float, 1.1929646455628165%float)))
    /\
    results self' !! "control_rate" = Some (VNum 0%float) /\
    results self' !! "treatment_rate" = Some (VNum 0.5%float) /\
    results self' !! "diff_ci"
    = Some (VPair (-0.19296464556281656)%float 1.1929646455628165%float) /\
    diff_ci_of 0%float 0.5%float 2
    = ((-0.19296464556281656)%float, 1.1929646455628165%float) /\
    (2 * (0.5 - 0) - 1.1929646455628165)%float
    = (-0.19296464556281645)%float /\
    PrimFloat.eqb (-0.19296464556281656)%float
      (2 * (0.5 - 0) - 1.1929646455628165)%float = false.
Proof.
  eexists _, _, _. split; [vm_compute; reflexivity|].
  repeat split; vm_compute; reflexivity.
Qed.

(** C7, as stated, fails in binary64, on the example of the documentation:
    with rates 0.1 and 0.12, 100000 visitors and an order value of 50, the
    stage stores 2000 additional conversions, whereas
    [monthly_visitors * (rate_t - rate_c)] is 1999.9999999999991.  The
    additional revenue it returns is 100000. *)
Lemma business_impact_binary64 :
  exists self',
    (calculate_basic_metrics (analyzer_of 100 0.05%float (frame 10 12 100))
       ≫= fun sr => calculate_business_impact sr.1 100000%float 50%float)
    = Ok (self', 100000%float) /\
    results self' !! "control_rate" = Some (VNum 0.1%float) /\
    results self' !! "treatment_rate" = Some (VNum 0.12%float) /\
    results self' !! "additional_conversions" = Some (VNum 2000%float) /\
    (100000 * (0.12 - 0.1))%float = 1999.9999999999991%float /\
    PrimFloat.eqb 2000%float (100000 * (0.12 - 0.1))%float = false.
Proof.
  eexists. split; [vm_compute; reflexivity|].
  repeat split; vm_compute; reflexivity.
Qed.

(** * Further properties *)

#[local] Set Warnings "-inconsistent-scopes".

(** ** The pipeline as a whole *)

Section Pipeline.
Context {F : Type} `{Scalar F}.
Variable norm_cdf norm_ppf np_arcsin : F -> F.
Variable ttest_ind : list Z -> list Z -> F * F.
Variable proportion_effectsize : F -> F -> F.
Variable zt_ind_solve_power :
  option F -> option F -> option F -> option F -> F -> string -> result F.
Implicit Types self : ABTestAnalyzer F.

#[local] Abbreviation run :=
  (run_full_analysis norm_cdf norm_ppf np_arcsin ttest_ind
     proportion_effectsize zt_ind_solve_power).

(** The two calls of the power solver. *)
#[local] Abbreviation solve_power self rc rt :=
  (zt_ind_solve_power (Some (proportion_effectsize rc rt))
     (Some (of_int (n_per_group self))) (Some (alpha self)) None
     (of_int 1) "two-sided").
#[local] Abbreviation solve_nobs self rc rt :=
  (zt_ind_solve_power (Some (proportion_effectsize rc rt)) None
     (Some (alpha self)) (Some (lit 8 10)) (of_int 1) "two-sided").

(** Everything a completed run has stored, on top of [self]. *)
#[local] Abbreviation stored self rc rt se ap rn :=
  (let control_data := converted_of (df self) Control in
   let treatment_data := converted_of (df self) Treatment in
   let z := z_stat_of rc rt se in
   let t := ttest_ind treatment_data control_data in
   let cci := ci norm_ppf (sum_list control_data) (len control_data) in
   let tci := ci norm_ppf (sum_list treatment_data) (len treatment_data) in
   let dci := diff_ci_of rc rt (n_per_group self) in
   let h := cohens_h_of np_arcsin rc rt in
   let mv : F := of_int 100000 in
   let aov : F := of_int 75 in
   store "additional_revenue" (VNum (mv * rt * aov - mv * rc * aov)%S)
   (store "additional_conversions" (VNum (mv * rt - mv * rc)%S)
   (store "avg_order_value" (VNum aov)
   (store "monthly_visitors" (VNum mv)
   (store "required_n" (VNum rn)
   (store "achieved_power" (VNum ap)
   (store "effect_category" (VStr (effect_category_of h))
   (store "cohens_h" (VNum h)
   (store "diff_ci" (VPair dci.1 dci.2)
   (store "treatment_ci" (VPair tci.1 tci.2)
   (store "control_ci" (VPair cci.1 cci.2)
   (store "t_pvalue" (VNum t.2)
   (store "t_stat" (VNum t.1)
   (store "p_value" (VNum (p_value_of norm_cdf z))
   (store "z_stat" (VNum z)
   (store "relative_lift" (VNum (relative_lift_of rc rt))
   (store "absolute_lift" (VNum (absolute_lift_of rc rt))
   (store "treatment_rate" (VNum rt)
   (store "control_rate" (VNum rc) self))))))))))))))))))).

#[local] Abbreviation verdict_of self rc rt se :=
  (if ((p_value_of norm_cdf (z_stat_of rc rt se) <? alpha self)%S
       && (of_int 0 <? (diff_ci_of rc rt (n_per_group self)).1)%S)%bool
   then Proceed else Insufficient).


Lemma get_num_store_eq k (x : F) self : get_num (store k (VNum x) self) k = Ok x.
Proof. unfold get_num. now rewrite lookup_store_eq. Qed.

Lemma get_pair_store_eq k (lo hi : F) self :
  get_pair (store k (VPair lo hi) self) k = Ok (lo, hi).
Proof. unfold get_pair. now rewrite lookup_store_eq. Qed.

Lemma get_pair_store_ne k k' (v : value F) self :
  k ≠ k' -> get_pair (store k v self) k' = get_pair self k'.
Proof. intros Hk. unfold get_pair. now rewrite lookup_store_ne. Qed.

Lemma df_store k (v : value F) self : df (store k v self) = df self.
Proof. reflexivity. Qed.

Lemma alpha_store k (v : value F) self : alpha (store k v self) = alpha self.
Proof. reflexivity. Qed.

Lemma n_per_group_store k (v : value F) self :
  n_per_group (store k v self) = n_per_group self.
Proof. reflexivity. Qed.

Ltac fields := repeat rewrite df_store, ?alpha_store, ?n_per_group_store;
  repeat rewrite alpha_store; repeat rewrite n_per_group_store.

Ltac read_key :=
  repeat (rewrite get_num_store_ne by discriminate);
  repeat (rewrite get_pair_store_ne by discriminate);
  rewrite ?get_num_store_eq, ?get_pair_store_eq.

Lemma calculate_basic_metrics_run self rc rt :
  loc_mean (df self) Control = Ok rc ->
  loc_mean (df self) Treatment = Ok rt ->
  calculate_basic_metrics self
  = Ok (store "relative_lift" (VNum (relative_lift_of rc rt))
          (store "absolute_lift" (VNum (absolute_lift_of rc rt))
          (store "treatment_rate" (VNum rt)
          (store "control_rate" (VNum rc) self))),
        groupby_agg (df self)).
Proof. unfold calculate_basic_metrics. now intros -> ->. Qed.

Lemma run_hypothesis_test_run self rt rc se :
  get_num self "treatment_rate" = Ok rt ->
  get_num self "control_rate" = Ok rc ->
  pooled_se_df (df self) = Ok se ->
  let z := z_stat_of rc rt se in
  let t := ttest_ind (converted_of (df self) Treatment)
             (converted_of (df self) Control) in
  run_hypothesis_test norm_cdf ttest_ind self
  = Ok (store "t_pvalue" (VNum t.2) (store "t_stat" (VNum t.1)
          (store "p_value" (VNum (p_value_of norm_cdf z))
          (store "z_stat" (VNum z) self))),
        (z, p_value_of norm_cdf z)).
Proof.
  intros Ht Hc Hse z t. unfold run_hypothesis_test. rewrite Hse, Ht, Hc.
  subst t. now destruct (ttest_ind _ _).
Qed.

Lemma calculate_confidence_intervals_run self rt rc :
  get_num self "treatment_rate" = Ok rt ->
  get_num self "control_rate" = Ok rc ->
  let cci := ci norm_ppf (sum_list (converted_of (df self) Control))
               (len (converted_of (df self) Control)) in
  let tci := ci norm_ppf (sum_list (converted_of (df self) Treatment))
               (len (converted_of (df self) Treatment)) in
  let dci := diff_ci_of rc rt (n_per_group self) in
  calculate_confidence_intervals norm_ppf self
  = Ok (store "diff_ci" (VPair dci.1 dci.2)
          (store "treatment_ci" (VPair tci.1 tci.2)
          (store "control_ci" (VPair cci.1 cci.2) self)),
        (cci, tci, dci)).
Proof.
  intros Ht Hc cci tci dci. unfold calculate_confidence_intervals.
  now rewrite Ht, Hc.
Qed.

Lemma calculate_effect_size_run self rt rc :
  get_num self "treatment_rate" = Ok rt ->
  get_num self "control_rate" = Ok rc ->
  let h := cohens_h_of np_arcsin rc rt in
  calculate_effect_size np_arcsin self
  = Ok (store "effect_category" (VStr (effect_category_of h))
          (store "cohens_h" (VNum h) self),
        (h, effect_category_of h)).
Proof.
  intros Ht Hc h. unfold calculate_effect_size. now rewrite Ht, Hc.
Qed.

Lemma calculate_power_run self rc rt ap rn :
  get_num self "control_rate" = Ok rc ->
  get_num self "treatment_rate" = Ok rt ->
  solve_power self rc rt = Ok ap ->
  solve_nobs self rc rt = Ok rn ->
  calculate_power proportion_effectsize zt_ind_solve_power self
  = Ok (store "required_n" (VNum rn) (store "achieved_power" (VNum ap) self),
        (ap, rn)).
Proof.
  intros Hc Ht Hap Hrn. unfold calculate_power. rewrite Hc, Ht.
  cbn [mbind result_bind]. rewrite Hap. cbn [mbind result_bind].
  now rewrite Hrn.
Qed.

Lemma calculate_power_fail_power self rc rt e :
  get_num self "control_rate" = Ok rc ->
  get_num self "treatment_rate" = Ok rt ->
  solve_power self rc rt = Raise e ->
  calculate_power proportion_effectsize zt_ind_solve_power self = Raise e.
Proof.
  intros Hc Ht Hap. unfold calculate_power. rewrite Hc, Ht.
  cbn [mbind result_bind]. now rewrite Hap.
Qed.

Lemma calculate_power_fail_nobs self rc rt ap e :
  get_num self "control_rate" = Ok rc ->
  get_num self "treatment_rate" = Ok rt ->
  solve_power self rc rt = Ok ap ->
  solve_nobs self rc rt = Raise e ->
  calculate_power proportion_effectsize zt_ind_solve_power self = Raise e.
Proof.
  intros Hc Ht Hap Hrn. unfold calculate_power. rewrite Hc, Ht.
  cbn [mbind result_bind]. rewrite Hap. cbn [mbind result_bind].
  now rewrite Hrn.
Qed.

Lemma calculate_business_impact_run self mv aov rc rt :
  get_num self "control_rate" = Ok rc ->
  get_num self "treatment_rate" = Ok rt ->
  calculate_business_impact self mv aov
  = Ok (store "additional_revenue" (VNum (mv * rt * aov - mv * rc * aov)%S)
          (store "additional_conversions" (VNum (mv * rt - mv * rc)%S)
          (store "avg_order_value" (VNum aov)
          (store "monthly_visitors" (VNum mv) self))),
        (mv * rt * aov - mv * rc * aov)%S).
Proof.
  intros Hc Ht. unfold calculate_business_impact. now rewrite Hc, Ht.
Qed.

Lemma store_fields k (v : value F) self :
  df (store k v self) = df self /\ alpha (store k v self) = alpha self
  /\ n_per_group (store k v self) = n_per_group self.
Proof. now split. Qed.

Lemma bind_Ok_l {A B} (a : A) (k : A -> result B) : (Ok a ≫= k) = k a.
Proof. reflexivity. Qed.

Lemma bind_Raise_l {A B} (e : exn) (k : A -> result B) :
  (Raise e ≫= k) = Raise e.
Proof. reflexivity. Qed.

(** The run, with every read of the results resolved: it can only fail
    where a group is missing, where the pooled standard error divides by an
    empty cohort, or where the power solver fails. *)
Lemma run_full_analysis_unfold self :
  run self =
    rc ← loc_mean (df self) Control;
    rt ← loc_mean (df self) Treatment;
    se ← pooled_se_df (df self);
    ap ← solve_power self rc rt;
    rn ← solve_nobs self rc rt;
    mret (stored self rc rt se ap rn, verdict_of self rc rt se).
Proof.
  unfold run_full_analysis.
  destruct (loc_mean (df self) Control) as [rc|e] eqn:Hc.
  2: { unfold calculate_basic_metrics. now rewrite Hc. }
  destruct (loc_mean (df self) Treatment) as [rt|e] eqn:Ht.
  2: { unfold calculate_basic_metrics. now rewrite Hc, Ht. }
  rewrite (calculate_basic_metrics_run self rc rt Hc Ht), !bind_Ok_l.
  destruct (pooled_se_df (df self)) as [se|e] eqn:Hse.
  2: { unfold run_hypothesis_test. fields. now rewrite Hse. }
  rewrite (run_hypothesis_test_run _ rt rc se);
    [| now read_key | now read_key | now fields].
  fields. rewrite !bind_Ok_l; cbv beta iota. read_key. rewrite !bind_Ok_l; cbv beta iota.
  rewrite (calculate_confidence_intervals_run _ rt rc); [| now read_key ..].
  fields. rewrite !bind_Ok_l; cbv beta iota.
  rewrite (calculate_effect_size_run _ rt rc); [| now read_key ..].
  rewrite !bind_Ok_l; cbv beta iota.
  destruct (solve_power self rc rt) as [ap|e] eqn:Hap.
  2: { rewrite (calculate_power_fail_power _ rc rt e);
         [reflexivity | now read_key | now read_key | now fields]. }
  destruct (solve_nobs self rc rt) as [rn|e] eqn:Hrn.
  2: { rewrite (calculate_power_fail_nobs _ rc rt ap e);
         [reflexivity | now read_key | now read_key | now fields
         | now fields]. }
  rewrite (calculate_power_run _ rc rt ap rn);
    [| now read_key | now read_key | now fields | now fields].
  rewrite !bind_Ok_l; cbv beta iota.
  rewrite (calculate_business_impact_run _ _ _ rc rt); [| now read_key ..].
  rewrite !bind_Ok_l; cbv beta iota. unfold recommend. fields.
  destruct (_ <? alpha self)%S; cbn [andb]; [|reflexivity].
  read_key. rewrite bind_Ok_l; cbv beta iota. reflexivity.
Qed.


Lemma loc_mean_Ok (d : list row) (g : group) :
  converted_of d g <> [] ->
  loc_mean d g = Ok (of_int (sum_list (converted_of d g))
                       / of_int (len (converted_of d g)))%S.
Proof.
  unfold loc_mean, groupby_agg. intros Hne.
  destruct (converted_of d g); [contradiction|reflexivity].
Qed.


Lemma len_nonzero (l : list Z) : l <> [] -> len l <> 0%Z.
Proof. destruct l; [contradiction|]. intros _. unfold len. cbn. lia. Qed.

Lemma pooled_se_df_Ok (d : list row) :
  converted_of d Control <> [] -> converted_of d Treatment <> [] ->
  exists se, pooled_se_df d = Ok se.
Proof.
  intros Hc Ht. unfold pooled_se_df, int_truediv.
  rewrite !decide_False by now apply len_nonzero. eauto.
Qed.



Lemma store_over k (v : value F) (old : gmap string (value F)) self :
  store k v (over old self) = over old (store k v self).
Proof.
  unfold store, over. cbn. f_equal. apply insert_union_l.
Qed.

Lemma over_clear self : over (results self) (clear_results self) = self.
Proof.
  destruct self. unfold over, clear_results. cbn. f_equal.
  apply (left_id_L ∅ (∪)).
Qed.

Lemma stored_over self rc rt se ap rn :
  stored self rc rt se ap rn
  = over (results self) (stored (clear_results self) rc rt se ap rn).
Proof.
  cbv zeta. rewrite <- !store_over, over_clear. reflexivity.
Qed.

(** X2.  What the run writes does not depend on what the results held before:
    on any analyzer it fails or succeeds as on the same analyzer with empty
    results, with the same verdict, and leaves the entries of that fresh run
    on top of the earlier ones. *)
Theorem full_analysis_overwrites self :
  run_full_analysis norm_cdf norm_ppf np_arcsin ttest_ind
    proportion_effectsize zt_ind_solve_power self
  = (fun sv => (over (results self) sv.1, sv.2))
      <$> run_full_analysis norm_cdf norm_ppf np_arcsin ttest_ind
            proportion_effectsize zt_ind_solve_power (clear_results self).
Proof.
  rewrite !run_full_analysis_unfold.
  change (df (clear_results self)) with (df self).
  change (alpha (clear_results self)) with (alpha self).
  change (n_per_group (clear_results self)) with (n_per_group self).
  destruct (loc_mean (df self) Control) as [rc|e]; [|reflexivity].
  destruct (loc_mean (df self) Treatment) as [rt|e]; [|reflexivity].
  destruct (pooled_se_df (df self)) as [se|e]; [|reflexivity].
  rewrite !bind_Ok_l.
  destruct (zt_ind_solve_power _ (Some _) _ _ _ _) as [ap|e]; [|reflexivity].
  destruct (zt_ind_solve_power _ None _ _ _ _) as [rn|e]; [|reflexivity].
  rewrite !bind_Ok_l.
  cbn [fmap result_fmap mret result_ret fst snd]. cbv zeta.
  pose proof (stored_over self rc rt se ap rn) as Hs. cbv zeta in Hs.
  rewrite Hs. reflexivity.
Qed.


Lemma run_full_analysis_Ok self s' v :
  run self = Ok (s', v) ->
  exists rc rt se ap rn,
    loc_mean (df self) Control = Ok rc /\
    loc_mean (df self) Treatment = Ok rt /\
    pooled_se_df (df self) = Ok se /\
    solve_power self rc rt = Ok ap /\
    solve_nobs self rc rt = Ok rn /\
    s' = stored self rc rt se ap rn /\
    v = verdict_of self rc rt se.
Proof.
  rewrite run_full_analysis_unfold. intros Hrun.
  apply bind_Ok in Hrun as (rc & Hc & Hrun).
  apply bind_Ok in Hrun as (rt & Ht & Hrun).
  apply bind_Ok in Hrun as (se & Hse & Hrun).
  apply bind_Ok in Hrun as (ap & Hap & Hrun).
  apply bind_Ok in Hrun as (rn & Hrn & Hrun).
  injection Hrun as <- <-. exists rc, rt, se, ap, rn. auto 10.
Qed.

(** X3.  A completed run leaves the configuration and the data frame as they
    were, and its results hold the nineteen keys of the stages besides the
    keys that were there before. *)
Theorem full_analysis_frame self self' verdict :
  run_full_analysis norm_cdf norm_ppf np_arcsin ttest_ind
    proportion_effectsize zt_ind_solve_power self = Ok (self', verdict) ->
  df self' = df self /\
  control_rate self' = control_rate self /\
  treatment_rate self' = treatment_rate self /\
  n_per_group self' = n_per_group self /\
  alpha self' = alpha self /\
  dom (results self')
  = ({[ "control_rate"; "treatment_rate"; "absolute_lift"; "relative_lift";
        "z_stat"; "p_value"; "t_stat"; "t_pvalue";
        "control_ci"; "treatment_ci"; "diff_ci";
        "cohens_h"; "effect_category"; "achieved_power"; "required_n";
        "monthly_visitors"; "avg_order_value"; "additional_conversions";
        "additional_revenue" ]} : gset string) ∪ dom (results self).
Proof.
  intros Hrun.
  apply run_full_analysis_Ok in Hrun
    as (rc & rt & se & ap & rn & _ & _ & _ & _ & _ & -> & _).
  cbv zeta. repeat split; try reflexivity.
  rewrite !results_store, !dom_insert_L. apply set_eq. intros k.
  rewrite !elem_of_union, !elem_of_singleton. tauto.
Qed.

Lemma clear_stored self rc rt se ap rn :
  clear_results (stored self rc rt se ap rn) = clear_results self.
Proof. reflexivity. Qed.

Lemma over_absorb (old : gmap string (value F)) self :
  over (results self ∪ old) self = over old self.
Proof.
  unfold over. f_equal.
  now rewrite (assoc_L (∪)), (idemp_L (∪)).
Qed.

(** X4.  Running the analysis again on its own outcome changes nothing: the
    second run returns the same analyzer and the same verdict. *)
Theorem full_analysis_idempotent self self' verdict :
  run_full_analysis norm_cdf norm_ppf np_arcsin ttest_ind
    proportion_effectsize zt_ind_solve_power self = Ok (self', verdict) ->
  run_full_analysis norm_cdf norm_ppf np_arcsin ttest_ind
    proportion_effectsize zt_ind_solve_power self' = Ok (self', verdict).
Proof.
  intros Hrun.
  apply run_full_analysis_Ok in Hrun
    as (rc & rt & se & ap & rn & Hc & Ht & Hse & Hap & Hrn & Hs & Hv).
  assert (df self' = df self) as Hd by now rewrite Hs.
  assert (alpha self' = alpha self) as Ha by now rewrite Hs.
  assert (n_per_group self' = n_per_group self) as Hn by now rewrite Hs.
  assert (clear_results self' = clear_results self) as Hclear
    by (rewrite Hs; apply clear_stored).
  rewrite run_full_analysis_unfold.
  rewrite Hd, Hc, Ht, Hse, !bind_Ok_l, Ha, Hn, Hap, bind_Ok_l, Hrn, bind_Ok_l.
  cbn [mret result_ret]. rewrite <- Hv. f_equal. f_equal.
  pose proof (stored_over self' rc rt se ap rn) as E2.
  pose proof (stored_over self rc rt se ap rn) as E1.
  cbv zeta in Hs, E1, E2 |- *. rewrite Hclear, Hd, Hn in E2.
  rewrite <- Hs in E1. rewrite E2.
  rewrite E1 at 1. cbn [results over]. rewrite over_absorb. now rewrite <- E1.
Qed.

(** X5.  The significance level reaches the power analysis and the verdict
    only: of two completed runs that differ in [alpha] alone, every result
    other than [achieved_power] and [required_n] is the same. *)
Theorem alpha_reaches_power_only self (alpha1 alpha2 : F) s1 v1 s2 v2 :
  run_full_analysis norm_cdf norm_ppf np_arcsin ttest_ind
    proportion_effectsize zt_ind_solve_power (with_alpha alpha1 self)
  = Ok (s1, v1) ->
  run_full_analysis norm_cdf norm_ppf np_arcsin ttest_ind
    proportion_effectsize zt_ind_solve_power (with_alpha alpha2 self)
  = Ok (s2, v2) ->
  df s1 = df s2 /\
  forall k : string,
    k <> "achieved_power" -> k <> "required_n" ->
    results s1 !! k = results s2 !! k.
Proof.
  intros H1 H2.
  apply run_full_analysis_Ok in H1
    as (rc & rt & se & ap & rn & Hc & Ht & Hse & _ & _ & -> & _).
  apply run_full_analysis_Ok in H2
    as (rc' & rt' & se' & ap' & rn' & Hc' & Ht' & Hse' & _ & _ & -> & _).
  change (df (with_alpha alpha1 self)) with (df self) in *.
  change (df (with_alpha alpha2 self)) with (df self) in *.
  rewrite Hc in Hc'. rewrite Ht in Ht'. rewrite Hse in Hse'.
  injection Hc' as <-. injection Ht' as <-. injection Hse' as <-.
  split; [reflexivity|]. intros k Hap Hrn. cbv zeta.
  rewrite !results_store, !(lookup_insert (M := gmap string)).
  repeat (case_decide; [subst; try contradiction; reflexivity|]).
  reflexivity.
Qed.

End Pipeline.

(** The sample run completes, with the verdict "proceed". *)
Lemma sample_run_proceeds :
  snd <$> sample_run sample_analyzer = Ok Proceed.
Proof. vm_compute. reflexivity. Qed.

Lemma sample_run_Ok :
  exists s, sample_run sample_analyzer = Ok (s, Proceed).
Proof.
  pose proof sample_run_proceeds as Hv.
  destruct (sample_run sample_analyzer) as [[s v]|e]; [|discriminate Hv].
  injection Hv as ->. now exists s.
Qed.


Lemma full_analysis_frame_witness :
  exists self' verdict,
    sample_run sample_analyzer = Ok (self', verdict) /\
    df self' = frame 2 12 20 /\ alpha self' = 0.05%float.
Proof.
  destruct sample_run_Ok as [s Hs]. exists s, Proceed.
  split; [exact Hs|]. unfold sample_run in Hs.
  destruct (full_analysis_frame Sample.norm_cdf Sample.norm_ppf
              Sample.arcsin Sample.ttest_ind Sample.proportion_effectsize
              Sample.zt_ind_solve_power sample_analyzer s Proceed Hs)
    as (Hdf & _ & _ & _ & Ha & _).
  split; [exact Hdf | exact Ha].
Defined.

Lemma full_analysis_idempotent_witness :
  exists self' verdict,
    sample_run sample_analyzer = Ok (self', verdict) /\
    sample_run self' = Ok (self', verdict).
Proof.
  destruct sample_run_Ok as [s Hs]. exists s, Proceed.
  split; [exact Hs|]. unfold sample_run in *.
  exact (full_analysis_idempotent Sample.norm_cdf Sample.norm_ppf
           Sample.arcsin Sample.ttest_ind Sample.proportion_effectsize
           Sample.zt_ind_solve_power sample_analyzer s Proceed Hs).
Defined.

Lemma sample_run_strict_Ok :
  is_ok (sample_run (with_alpha 0.01%float sample_analyzer)) = true.
Proof. vm_compute. reflexivity. Qed.

Lemma sample_run_lenient_Ok :
  is_ok (sample_run (with_alpha 0.1%float sample_analyzer)) = true.
Proof. vm_compute. reflexivity. Qed.

Lemma alpha_reaches_power_only_witness :
  exists s1 v1 s2 v2,
    sample_run (with_alpha 0.1%float sample_analyzer) = Ok (s1, v1) /\
    sample_run (with_alpha 0.01%float sample_analyzer) = Ok (s2, v2) /\
    results s1 !! "p_value" = results s2 !! "p_value".
Proof.
  pose proof sample_run_lenient_Ok as Hok1.
  pose proof sample_run_strict_Ok as Hok2.
  destruct (sample_run (with_alpha 0.1%float sample_analyzer))
    as [[s1 v1]|e] eqn:Hs1; [|discriminate Hok1].
  destruct (sample_run (with_alpha 0.01%float sample_analyzer))
    as [[s2 v2]|e] eqn:Hs2; [|discriminate Hok2].
  exists s1, v1, s2, v2. split; [reflexivity|]. split; [reflexivity|].
  unfold sample_run in Hs1, Hs2.
  apply (alpha_reaches_power_only Sample.norm_cdf Sample.norm_ppf
           Sample.arcsin Sample.ttest_ind Sample.proportion_effectsize
           Sample.zt_ind_solve_power sample_analyzer 0.1%float 0.01%float
           s1 v1 s2 v2 Hs1 Hs2); discriminate.
Defined.

(** ** Signs in binary64 *)

(** Rounding keeps the sign it is given: the result is a zero, a finite
    number or an infinity of that sign, or a NaN. *)
Lemma binary_round_aux_sign (s : bool) (m e : Z) (l : location) :
  match binary_round_aux prec emax s m e l with
  | S754_zero s' | S754_infinity s' | S754_finite s' _ _ => s' = s
  | S754_nan => True
  end.
Proof.
  unfold binary_round_aux.
  destruct (shr_fexp prec emax m e l) as [mrs e1].
  destruct (shr_fexp prec emax _ e1 loc_Exact) as [mrs2 e2].
  destruct (shr_m mrs2); [reflexivity| |exact I].
  destruct (Z.leb e2 _); reflexivity.
Qed.

Lemma binary_round_sign (s : bool) (m : positive) (e : Z) :
  match binary_round prec emax s m e with
  | S754_zero s' | S754_infinity s' | S754_finite s' _ _ => s' = s
  | S754_nan => True
  end.
Proof.
  unfold binary_round. destruct (shl_align _ _ _) as [mz ez].
  apply binary_round_aux_sign.
Qed.

Lemma SFnot_neg_ltb (x : float) :
  PrimFloat.ltb x 0 = false <-> SFnot_neg (Prim2SF x).
Proof.
  rewrite ltb_spec. change (Prim2SF 0) with (S754_zero false).
  destruct (Prim2SF x) as [[]|[]| |[] m e]; cbn; intuition congruence.
Qed.

(** A square root is never below zero. *)
Lemma float_sqrt_not_neg (x : float) :
  PrimFloat.ltb (PrimFloat.sqrt x) 0 = false.
Proof.
  apply SFnot_neg_ltb. rewrite sqrt_spec. unfold SF64sqrt, SFsqrt.
  destruct (Prim2SF x) as [[]|[]| |[] m e]; try exact I.
  destruct (SFsqrt_core_binary prec emax (Z.pos m) e) as [[mz ez] lz].
  pose proof (binary_round_aux_sign false mz ez lz) as Hs.
  destruct (binary_round_aux prec emax false mz ez lz) as [|[]| |[] ? ?];
    try exact I; discriminate Hs.
Qed.

(** The product of a positive finite constant and a number not below zero
    is not below zero. *)
Lemma float_mul_not_neg (c y : float) :
  PrimFloat.ltb 0 c = true -> PrimFloat.ltb y 0 = false ->
  PrimFloat.ltb (c * y) 0 = false.
Proof.
  rewrite ltb_spec. change (Prim2SF 0) with (S754_zero false).
  intros Hc Hy. apply SFnot_neg_ltb in Hy. apply SFnot_neg_ltb.
  rewrite mul_spec. unfold SF64mul, SFmul.
  destruct (Prim2SF c) as [[]|[]| |[] mc ec]; try discriminate Hc;
    destruct (Prim2SF y) as [[]|[]| |[] my ey]; try exact I;
    try contradiction.
  cbn [xorb].
  pose proof (binary_round_aux_sign false (Z.pos (mc * my)) (ec + ey)
                loc_Exact) as Hs.
  destruct (binary_round_aux _ _ _ _ _ _) as [|[]| |[] ? ?];
    try exact I; discriminate Hs.
Qed.

(** Not above zero: a NaN, a zero, or negative. *)
Lemma float_sub_not_pos (x y : float) :
  PrimFloat.ltb 0 x = false -> PrimFloat.ltb y 0 = false ->
  PrimFloat.ltb 0 (x - y) = false.
Proof.
  rewrite ltb_spec. intros Hx Hy. apply SFnot_neg_ltb in Hy.
  rewrite ltb_spec, sub_spec. change (Prim2SF 0) with (S754_zero false) in *.
  unfold SF64sub, SFsub.
  destruct (Prim2SF x) as [[]|[]| |[] mx ex]; try discriminate Hx;
    destruct (Prim2SF y) as [[]|[]| |[] my ey]; try reflexivity;
    try contradiction.
  unfold binary_normalize, cond_Zopp.
  destruct (_ - _)%Z as [|p|p] eqn:Hdiff; [lia | lia |].
  pose proof (binary_round_sign true p (Z.min ex ey)) as Hs.
  destruct (binary_round _ _ _ _ _) as [[]|[]| |[] ? ?];
    try reflexivity; discriminate Hs.
Qed.

Lemma float_ltb_nan_l (a : float) : PrimFloat.ltb nan a = false.
Proof. rewrite ltb_spec. reflexivity. Qed.

(** ** Stages called on their own *)

Section StageErrors.
Context {F : Type} `{Scalar F}.
Variable norm_cdf norm_ppf np_arcsin : F -> F.
Variable ttest_ind : list Z -> list Z -> F * F.
Variable proportion_effectsize : F -> F -> F.
Variable zt_ind_solve_power :
  option F -> option F -> option F -> option F -> F -> string -> result F.
Implicit Types self : ABTestAnalyzer F.


(** X8.  [run_hypothesis_test] divides by the two cohort sizes before it reads
    the results: with an empty cohort it raises [ZeroDivisionError], whatever
    the results hold; with both cohorts non-empty and no stored rate it raises
    the [KeyError] of [treatment_rate], the first one it reads, and with only
    that one stored the [KeyError] of [control_rate]. *)
Theorem hypothesis_test_errors self :
  (converted_of (df self) Control = []
   \/ converted_of (df self) Treatment = [] ->
   run_hypothesis_test norm_cdf ttest_ind self = Raise ZeroDivisionError) /\
  (converted_of (df self) Control <> [] ->
   converted_of (df self) Treatment <> [] ->
   (results self !! "treatment_rate" = None ->
    run_hypothesis_test norm_cdf ttest_ind self
    = Raise (KeyError "treatment_rate")) /\
   (forall rt, results self !! "treatment_rate" = Some (VNum rt) ->
    results self !! "control_rate" = None ->
    run_hypothesis_test norm_cdf ttest_ind self
    = Raise (KeyError "control_rate"))).
Proof.
  unfold run_hypothesis_test, pooled_se_df, int_truediv. split.
  - intros [Hc|Ht].
    + rewrite Hc. reflexivity.
    + rewrite Ht. destruct (decide (len (converted_of (df self) Control) = 0%Z));
        reflexivity.
  - intros Hc Ht. rewrite !decide_False by now apply len_nonzero.
    cbn [mbind result_bind mret result_ret]. unfold get_num. split.
    + now intros ->.
    + intros rt -> Hnone. cbn [mbind result_bind]. now rewrite Hnone.
Qed.

(** X9.  The later stages read the stored rates: called before
    [calculate_basic_metrics] has stored them, each raises the [KeyError] of
    the first rate it reads, [treatment_rate] for the intervals and the effect
    size, [control_rate] for the power and the business impact. *)
Theorem stages_need_rates self :
  (results self !! "treatment_rate" = None ->
   calculate_confidence_intervals norm_ppf self
   = Raise (KeyError "treatment_rate") /\
   calculate_effect_size np_arcsin self = Raise (KeyError "treatment_rate"))
  /\
  (results self !! "control_rate" = None ->
   calculate_power proportion_effectsize zt_ind_solve_power self
   = Raise (KeyError "control_rate") /\
   forall monthly_visitors avg_order_value,
     calculate_business_impact self monthly_visitors avg_order_value
     = Raise (KeyError "control_rate")).
Proof.
  unfold calculate_confidence_intervals, calculate_effect_size,
    calculate_power, calculate_business_impact, get_num.
  split; intros ->; split; reflexivity.
Qed.

End StageErrors.


Lemma hypothesis_test_errors_witness :
  run_hypothesis_test Sample.norm_cdf Sample.ttest_ind
    (with_rates 0.1%float 0.6%float (analyzer_of 0 0.05%float []))
  = Raise ZeroDivisionError
  /\ run_hypothesis_test Sample.norm_cdf Sample.ttest_ind sample_analyzer
     = Raise (KeyError "treatment_rate").
Proof.
  split.
  - destruct (hypothesis_test_errors Sample.norm_cdf Sample.ttest_ind
                (with_rates 0.1%float 0.6%float
                   (analyzer_of 0 0.05%float []))) as (Hzero & _).
    apply Hzero. left. reflexivity.
  - destruct (hypothesis_test_errors Sample.norm_cdf Sample.ttest_ind
                sample_analyzer) as (_ & Hkey).
    destruct Hkey as (Hmiss & _); [discriminate | discriminate |].
    apply Hmiss. reflexivity.
Defined.

Lemma stages_need_rates_witness :
  calculate_effect_size Sample.arcsin sample_analyzer
  = Raise (KeyError "treatment_rate")
  /\ calculate_business_impact sample_analyzer 100000%float 75%float
     = Raise (KeyError "control_rate").
Proof.
  destruct (stages_need_rates Sample.norm_ppf Sample.arcsin
              Sample.proportion_effectsize Sample.zt_ind_solve_power
              sample_analyzer) as (Ht & Hc).
  split.
  - apply Ht. reflexivity.
  - apply Hc. reflexivity.
Defined.

(** ** The verdict and the sign of the lift *)

Section Verdict.
Variable norm_cdf norm_ppf np_arcsin : float -> float.
Variable ttest_ind : list Z -> list Z -> float * float.
Variable proportion_effectsize : float -> float -> float.
Variable zt_ind_solve_power :
  option float -> option float -> option float -> option float -> float ->
  string -> result float.

(** The lower end of the difference interval is above zero only if the
    difference is. *)
Lemma diff_ci_lower_not_pos (rc rt : float) (n : Z) :
  PrimFloat.ltb 0 (rt - rc) = false ->
  PrimFloat.ltb 0 (diff_ci_of rc rt n).1 = false.
Proof.
  intros Hd. unfold diff_ci_of. cbn [fst fsub fmul fsqrt float_scalar].
  apply float_sub_not_pos; [exact Hd|].
  apply float_mul_not_neg; [reflexivity|]. apply float_sqrt_not_neg.
Qed.

(** X6.  The verdict is "proceed" only when the absolute lift stored,
    [treatment_rate - control_rate], is strictly positive: with a lift that is
    zero, negative or not a number the run never recommends the rollout,
    whatever the library functions return. *)
Theorem proceed_needs_positive_lift (self self' : ABTestAnalyzer float)
    (lift : float) :
  run_full_analysis norm_cdf norm_ppf np_arcsin ttest_ind
    proportion_effectsize zt_ind_solve_power self = Ok (self', Proceed) ->
  results self' !! "absolute_lift" = Some (VNum lift) ->
  PrimFloat.ltb 0 lift = true.
Proof.
  intros Hrun Hlift.
  apply run_full_analysis_Ok in Hrun
    as (rc & rt & se & ap & rn & _ & _ & _ & _ & _ & -> & Hv).
  cbv zeta in Hlift. rewrite !lookup_store_ne in Hlift by discriminate.
  rewrite lookup_store_eq in Hlift. injection Hlift as <-.
  destruct (PrimFloat.ltb 0 (absolute_lift_of rc rt)) eqn:Hpos;
    [exact Hpos|].
  cbn [flt float_scalar] in Hv.
  rewrite (diff_ci_lower_not_pos rc rt _ Hpos), andb_false_r in Hv.
  discriminate Hv.
Qed.

End Verdict.

Lemma sample_run_lift :
  (fun sv => results sv.1 !! "absolute_lift") <$> sample_run sample_analyzer
  = Ok (Some (VNum 0.5%float)).
Proof. vm_compute. reflexivity. Qed.

Lemma proceed_needs_positive_lift_witness :
  exists self',
    sample_run sample_analyzer = Ok (self', Proceed) /\
    results self' !! "absolute_lift" = Some (VNum 0.5%float) /\
    PrimFloat.ltb 0 0.5 = true.
Proof.
  destruct sample_run_Ok as [s Hs]. exists s.
  pose proof sample_run_lift as Hl. rewrite Hs in Hl.
  injection Hl as Hl.
  split; [exact Hs|]. split; [exact Hl|].
  exact (proceed_needs_positive_lift Sample.norm_cdf Sample.norm_ppf
           Sample.arcsin Sample.ttest_ind Sample.proportion_effectsize
           Sample.zt_ind_solve_power sample_analyzer s 0.5%float Hs Hl).
Defined.

(** ** The generated data frame *)

(** Rows built from ids and outcomes of one group. *)
Lemma rows_one_group (g g' : group) (ids conv : list Z) :
  length ids = length conv ->
  let d := zip_with (fun ig c => Row ig.1 ig.2 c)
             (zip ids (replicate (length ids) g)) conv in
  converted_of d g' = (if decide (g = g') then conv else [])
  /\ user_id <$> d = ids /\ grp <$> d = replicate (length ids) g.
Proof.
  revert conv. induction ids as [|i ids IH]; intros [|c conv] Hlen;
    try discriminate Hlen.
  - cbn. now destruct (decide (g = g')).
  - injection Hlen as Hlen. specialize (IH conv Hlen).
    cbn zeta in IH. destruct IH as (Hconv & Hids & Hgrp).
    cbn [length replicate zip zip_with fmap list_fmap user_id grp fst snd].
    unfold converted_of in *. rewrite filter_cons. cbn [grp].
    split; [|split].
    + destruct (decide (g = g')) as [Hg|Hg].
      * rewrite fmap_cons. cbn [converted]. f_equal. exact Hconv.
      * exact Hconv.
    + f_equal. exact Hids.
    + f_equal. exact Hgrp.
Qed.

Section Layout.
Context {F : Type} `{Scalar F}.
Variable rng : Type.
Variable np_random_seed : Z -> rng.
Variable np_random_binomial : Z -> F -> Z -> rng -> result (list Z * rng).

(** The sampler returns as many draws as it is asked for. *)
Hypothesis binomial_size : forall n p size g l g',
  np_random_binomial n p size g = Ok (l, g') -> length l = Z.to_nat size.

(** What [_generate_data] does: it draws the control vector, then the
    treatment vector from the state the first draw left; it fails where a
    draw fails, and never on the lengths of the columns. *)
Lemma _generate_data_cases (control_rate treatment_rate : F)
    (n_per_group : Z) (g : rng) :
  match _generate_data rng np_random_binomial control_rate treatment_rate
          n_per_group g with
  | Raise e =>
      np_random_binomial 1 control_rate n_per_group g = Raise e \/
      exists cc g1,
        np_random_binomial 1 control_rate n_per_group g = Ok (cc, g1) /\
        np_random_binomial 1 treatment_rate n_per_group g1 = Raise e
  | Ok (d, g') =>
      exists cc tc g1,
        np_random_binomial 1 control_rate n_per_group g = Ok (cc, g1) /\
        np_random_binomial 1 treatment_rate n_per_group g1 = Ok (tc, g') /\
        converted_of d Control = cc /\
        converted_of d Treatment = tc /\
        user_id <$> d = seqZ 1 (2 * n_per_group) /\
        len cc = Z.max 0 n_per_group /\
        len tc = Z.max 0 n_per_group
  end.
Proof.
  unfold _generate_data.
  destruct (np_random_binomial 1 control_rate n_per_group g)
    as [[cc g1]|e] eqn:Hcc; [|now left].
  cbn [mbind result_bind].
  destruct (np_random_binomial 1 treatment_rate n_per_group g1)
    as [[tc g2]|e] eqn:Htc; [|right; now exists cc, g1].
  cbn [mbind result_bind].
  pose proof (binomial_size _ _ _ _ _ _ Hcc) as Hlc.
  pose proof (binomial_size _ _ _ _ _ _ Htc) as Hlt.
  set (k := Z.to_nat n_per_group) in *.
  assert (seqZ 1 (2 * n_per_group)
          = seqZ 1 (Z.of_nat k) ++ seqZ (1 + Z.of_nat k) (Z.of_nat k)) as Hids.
  { destruct (Z.le_gt_cases 0 n_per_group) as [Hn|Hn].
    - rewrite <- seqZ_app by lia. f_equal. lia.
    - assert (k = 0%nat) as -> by lia. rewrite seqZ_nil by lia. reflexivity. }
  assert (length (seqZ 1 (Z.of_nat k)) = k) as Hl1
    by (rewrite length_seqZ; lia).
  assert (length (seqZ (1 + Z.of_nat k) (Z.of_nat k)) = k) as Hl2
    by (rewrite length_seqZ; lia).
  unfold pd_DataFrame. rewrite decide_True.
  2: { rewrite Hids, !length_app, !length_replicate, Hl1, Hl2, Hlc, Hlt.
       split; reflexivity. }
  cbn [mbind result_bind mret result_ret].
  exists cc, tc, g1. split; [reflexivity|]. split; [exact Htc|].
  rewrite Hids.
  rewrite zip_with_app by (rewrite length_replicate; lia).
  rewrite zip_with_app by (rewrite length_zip_with, length_replicate; lia).
  pose proof (rows_one_group Control Control (seqZ 1 (Z.of_nat k)) cc
                ltac:(lia)) as (Hcc1 & Hid1 & _).
  pose proof (rows_one_group Control Treatment (seqZ 1 (Z.of_nat k)) cc
                ltac:(lia)) as (Hct1 & _ & _).
  pose proof (rows_one_group Treatment Control
                (seqZ (1 + Z.of_nat k) (Z.of_nat k)) tc ltac:(lia))
    as (Htc1 & _ & _).
  pose proof (rows_one_group Treatment Treatment
                (seqZ (1 + Z.of_nat k) (Z.of_nat k)) tc ltac:(lia))
    as (Htt1 & Hid2 & _).
  rewrite Hl1 in Hcc1, Hct1, Hid1. rewrite Hl2 in Htc1, Htt1, Hid2.
  rewrite decide_True in Hcc1 by reflexivity.
  rewrite decide_True in Htt1 by reflexivity.
  rewrite decide_False in Hct1 by discriminate.
  rewrite decide_False in Htc1 by discriminate.
  split; [|split; [|split]].
  - unfold converted_of in *. rewrite filter_app, fmap_app, Hcc1, Htc1.
    apply app_nil_r.
  - unfold converted_of in *. rewrite filter_app, fmap_app, Hct1, Htt1.
    reflexivity.
  - rewrite fmap_app, Hid1, Hid2. reflexivity.
  - unfold len. rewrite Hlc, Hlt. split; lia.
Qed.

(** X10.  The analyzer a successful constructor returns: the configuration as
    given, empty results, and a data frame with the ids [1..2n] in order whose
    control outcomes are the first vector drawn (from the state
    [np_random_seed 42]) and whose treatment outcomes are the second, drawn
    from the state the first draw left; so both cohorts have [n_per_group]
    rows. *)
Theorem init_data_layout (control_rate treatment_rate : F) (n_per_group : Z)
    (alpha : F) (g : rng) (self : ABTestAnalyzer F) (g' : rng) :
  __init__ rng np_random_seed np_random_binomial control_rate treatment_rate
    n_per_group alpha g = Ok (self, g') ->
  exists control_conversions treatment_conversions g1,
    np_random_binomial 1 control_rate n_per_group (np_random_seed 42)
    = Ok (control_conversions, g1) /\
    np_random_binomial 1 treatment_rate n_per_group g1
    = Ok (treatment_conversions, g') /\
    converted_of (df self) Control = control_conversions /\
    converted_of (df self) Treatment = treatment_conversions /\
    user_id <$> df self = seqZ 1 (2 * n_per_group) /\
    len (converted_of (df self) Control) = Z.max 0 n_per_group /\
    len (converted_of (df self) Treatment) = Z.max 0 n_per_group /\
    self = Analyzer control_rate treatment_rate n_per_group alpha (df self) ∅.
Proof.
  unfold __init__. intros Hinit.
  apply bind_Ok in Hinit as ([d g2] & Hgen & Hinit).
  injection Hinit as <- <-. cbn [df].
  pose proof (_generate_data_cases control_rate treatment_rate n_per_group
                (np_random_seed 42)) as Hcases.
  rewrite Hgen in Hcases.
  destruct Hcases as (cc & tc & g1 & Hcc & Htc & HC & HT & Hids & Hlc & Hlt).
  exists cc, tc, g1. rewrite HC, HT. auto 10.
Qed.

End Layout.

Lemma Sample_binomial_size n p size g l g' :
  Sample.binomial n p size g = Ok (l, g') -> length l = Z.to_nat size.
Proof.
  unfold Sample.binomial.
  destruct (negb _); [discriminate|]. destruct (size <? 0)%Z; [discriminate|].
  destruct (n =? 1)%Z; [|discriminate]. intros [= Hd].
  rewrite <- (Sample_draws_length p (Z.to_nat size) g), Hd. reflexivity.
Qed.

Lemma sample_init_ok :
  is_ok (__init__ Sample.rng Sample.seed Sample.binomial 0.5%float 0.5%float
           4 0.05%float 0%Z) = true.
Proof. vm_compute. reflexivity. Qed.

(** Four users per group at rate 0.5, with the sample sampler. *)
Lemma init_data_layout_witness :
  exists self g',
    __init__ Sample.rng Sample.seed Sample.binomial 0.5%float 0.5%float 4
      0.05%float 0%Z = Ok (self, g') /\
    user_id <$> df self = [1; 2; 3; 4; 5; 6; 7; 8]%Z /\
    len (converted_of (df self) Control) = 4%Z /\
    len (converted_of (df self) Treatment) = 4%Z.
Proof.
  pose proof sample_init_ok as Hok.
  destruct (__init__ Sample.rng Sample.seed Sample.binomial 0.5%float
              0.5%float 4 0.05%float 0%Z) as [[self g']|e] eqn:Hinit;
    [|discriminate Hok].
  exists self, g'. split; [reflexivity|].
  destruct (init_data_layout Sample.rng Sample.seed Sample.binomial
              Sample_binomial_size 0.5%float 0.5%float 4 0.05%float 0%Z
              self g' Hinit)
    as (cc & tc & g1 & _ & _ & _ & _ & Hids & Hlc & Hlt & _).
  split; [exact Hids|]. split; [exact Hlc | exact Hlt].
Defined.

(** ** The chart and the export *)

Section ArtifactFacts.
Context {F : Type} `{Scalar F}.
Variable rng : Type.
Variable np_random_seed : Z -> rng.
Variable np_random_binomial : Z -> F -> Z -> rng -> result (list Z * rng).
Variable norm_cdf norm_ppf np_arcsin : F -> F.
Variable ttest_ind : list Z -> list Z -> F * F.
Variable proportion_effectsize : F -> F -> F.
Variable zt_ind_solve_power :
  option F -> option F -> option F -> option F -> F -> string -> result F.
Variable world : Type.
Variable os_makedirs : string -> io world unit.
Variable plt_subplots : io world unit.
Variable plot_bars : list F -> string -> io world unit.
Variable to_csv : gmap string (value F) -> string -> io world unit.
Implicit Types (self : ABTestAnalyzer F) (w : world).

#[local] Abbreviation chart :=
  (create_visualizations world os_makedirs plt_subplots plot_bars).

(** X11.  [create_visualizations] creates the directory and opens the figure
    before it reads the results. After a completed analysis it finds both
    rates and draws the two bars [rate * 100] into
    [save_dir/conversion_comparison.png], so it can fail only in the calls
    outside the program. On an analyzer without stored control rate, once
    those two calls have succeeded it raises [KeyError('control_rate')] and
    draws nothing: the world stays as the opened figure left it. *)
Theorem create_visualizations_reads_rates :
  (forall self0 self verdict save_dir w,
     run_full_analysis norm_cdf norm_ppf np_arcsin ttest_ind
       proportion_effectsize zt_ind_solve_power self0 = Ok (self, verdict) ->
     exists rc rt,
       results self !! "control_rate" = Some (VNum rc) /\
       results self !! "treatment_rate" = Some (VNum rt) /\
       chart self save_dir w
       = (os_makedirs save_dir ≫= fun _ => plt_subplots ≫= fun _ =>
          plot_bars [(rc * of_int 100)%S; (rt * of_int 100)%S]
            (save_dir +:+ "/conversion_comparison.png")) w)
  /\
  (forall self save_dir w w1 w2,
     results self !! "control_rate" = None ->
     os_makedirs save_dir w = (Ok (), w1) ->
     plt_subplots w1 = (Ok (), w2) ->
     chart self save_dir w = (Raise (KeyError "control_rate"), w2)).
Proof.
  split.
  - intros self0 self verdict save_dir w Hrun.
    apply run_full_analysis_Ok in Hrun
      as (rc & rt & se & ap & rn & _ & _ & _ & _ & _ & -> & _).
    exists rc, rt. cbv zeta.
    match goal with |- results ?s !! _ = _ /\ _ => set (final := s) end.
    assert (get_num final "control_rate" = Ok rc) as Hc.
    { subst final. repeat (rewrite get_num_store_ne by discriminate).
      apply get_num_store_eq. }
    assert (get_num final "treatment_rate" = Ok rt) as Ht.
    { subst final. repeat (rewrite get_num_store_ne by discriminate).
      apply get_num_store_eq. }
    split; [now apply get_num_lookup|]. split; [now apply get_num_lookup|].
    unfold create_visualizations. rewrite Hc, Ht. reflexivity.
  - intros self save_dir w w1 w2 Hnone Hdir Hfig.
    unfold create_visualizations, get_num. rewrite Hnone.
    unfold mbind, io_bind. rewrite Hdir, Hfig. reflexivity.
Qed.

(** X12.  In [main] an exception of [create_visualizations] is caught: when
    the analysis fails, [main] fails with its exception before any directory,
    figure or file is made; when it succeeds, [main] goes on to the export in
    the world the chart attempt left, whether that attempt raised or not, and
    returns the analyzer and its results unless the export itself raises. *)
Theorem main_survives_the_chart (g : rng) (w : world) :
  match main rng np_random_seed np_random_binomial norm_cdf norm_ppf
          np_arcsin ttest_ind proportion_effectsize zt_ind_solve_power g with
  | Raise e =>
      main_script rng np_random_seed np_random_binomial norm_cdf norm_ppf
        np_arcsin ttest_ind proportion_effectsize zt_ind_solve_power world
        os_makedirs plt_subplots plot_bars to_csv g w = (Raise e, w)
  | Ok (analyzer, _, g') =>
      main_script rng np_random_seed np_random_binomial norm_cdf norm_ppf
        np_arcsin ttest_ind proportion_effectsize zt_ind_solve_power world
        os_makedirs plt_subplots plot_bars to_csv g w
      = match to_csv (results analyzer) "outputs/ab_test_results.csv"
                (chart analyzer "outputs" w).2 with
        | (Ok _, w') => (Ok (analyzer, results analyzer, g'), w')
        | (Raise e, w') => (Raise e, w')
        end
  end.
Proof.
  unfold main, main_script, pure_io, try_except.
  cbv beta iota zeta delta [mbind io_bind result_bind mret io_ret result_ret].
  destruct (__init__ _ _ _ _ _ _ _ _) as [[a g1]|e]; [|reflexivity].
  destruct (run_full_analysis _ _ _ _ _ _ a) as [[a' v]|e]; [|reflexivity].
  destruct (chart a' "outputs" w) as [[[]|e] w1]; cbn [snd];
    now destruct (to_csv _ _ w1) as [[[]|e'] w2].
Qed.

End ArtifactFacts.

Lemma create_visualizations_reads_rates_witness :
  (exists s,
     sample_run sample_analyzer = Ok (s, Proceed) /\
     create_visualizations Disk.world Disk.makedirs Disk.subplots
       Disk.plot_bars s "outputs" []
     = (Ok (), ["outputs"; "outputs/conversion_comparison.png"])) /\
  create_visualizations Disk.world Disk.makedirs Disk.subplots
    Disk.plot_bars sample_analyzer "outputs" []
  = (Raise (KeyError "control_rate"), ["outputs"]).
Proof.
  destruct (create_visualizations_reads_rates Sample.norm_cdf
              Sample.norm_ppf Sample.arcsin Sample.ttest_ind
              Sample.proportion_effectsize Sample.zt_ind_solve_power
              Disk.world Disk.makedirs Disk.subplots Disk.plot_bars)
    as [Hdone Hnew].
  split.
  - destruct sample_run_Ok as [s Hs]. exists s. split; [exact Hs|].
    unfold sample_run in Hs.
    destruct (Hdone sample_analyzer s Proceed "outputs" [] Hs)
      as (rc & rt & _ & _ & ->).
    reflexivity.
  - apply (Hnew sample_analyzer "outputs" [] ["outputs"] ["outputs"]);
      reflexivity.
Defined.

(** ** Where [main] can fail *)

Section MainOutcomes.
Context {F : Type} `{Scalar F}.
Variable rng : Type.
Variable np_random_seed : Z -> rng.
Variable np_random_binomial : Z -> F -> Z -> rng -> result (list Z * rng).
Variable norm_cdf norm_ppf np_arcsin : F -> F.
Variable ttest_ind : list Z -> list Z -> F * F.
Variable proportion_effectsize : F -> F -> F.
Variable zt_ind_solve_power :
  option F -> option F -> option F -> option F -> F -> string -> result F.

Hypothesis binomial_size : forall n p size g l g',
  np_random_binomial n p size g = Ok (l, g') -> length l = Z.to_nat size.

(** X13.  With a sampler that returns as many draws as asked for, an exception
    of [main] is an exception of one of its two draws or of one of its two
    calls of the power solver: the program's own reads of the data frame and
    of the results never fail on the default configuration. *)
Theorem main_fails_only_in_libraries (g : rng) (e : exn) :
  main rng np_random_seed np_random_binomial norm_cdf norm_ppf np_arcsin
    ttest_ind proportion_effectsize zt_ind_solve_power g = Raise e ->
  (exists p st, np_random_binomial 1 p 5000 st = Raise e) \/
  (exists effect_size nobs1 power,
     zt_ind_solve_power (Some effect_size) nobs1 (Some (lit 5 100)) power
       (of_int 1) "two-sided" = Raise e).
Proof.
  unfold main, __init__. intros Hmain.
  pose proof (_generate_data_cases rng np_random_binomial binomial_size
                (lit 12 100) (lit 145 1000) 5000 (np_random_seed 42))
    as Hcases.
  destruct (_generate_data _ _ _ _ _ _) as [[d g1]|e0].
  2: { cbn in Hmain. injection Hmain as ->. left.
       destruct Hcases as [Hc|(cc & g1 & _ & Ht)]; eauto. }
  destruct Hcases as (cc & tc & g2 & _ & _ & HC & HT & _ & Hlc & Hlt).
  cbn [mbind result_bind mret result_ret] in Hmain.
  set (self := Analyzer _ _ _ _ d _) in Hmain.
  assert (converted_of (df self) Control <> []) as Hnc.
  { cbn [self df]. rewrite HC. intros ->. discriminate Hlc. }
  assert (converted_of (df self) Treatment <> []) as Hnt.
  { cbn [self df]. rewrite HT. intros ->. discriminate Hlt. }
  rewrite run_full_analysis_unfold in Hmain.
  rewrite (loc_mean_Ok _ _ Hnc), (loc_mean_Ok _ _ Hnt) in Hmain.
  destruct (pooled_se_df_Ok (F := F) _ Hnc Hnt) as [se Hse].
  rewrite Hse, !bind_Ok_l in Hmain. right.
  match type of Hmain with
  | (?m ≫= _) ≫= _ = _ => destruct m as [ap|e1] eqn:Hap
  end.
  2: { cbn in Hmain. injection Hmain as ->. eauto. }
  rewrite bind_Ok_l in Hmain.
  match type of Hmain with
  | (?m ≫= _) ≫= _ = _ => destruct m as [rn|e1] eqn:Hrn
  end.
  2: { cbn in Hmain. injection Hmain as ->. eauto. }
  discriminate Hmain.
Qed.

End MainOutcomes.

(** [main] with the sample sampler and a solver that finds no solution. *)
Lemma sample_main_fails :
  main Sample.rng Sample.seed Sample.binomial Sample.norm_cdf Sample.norm_ppf
    Sample.arcsin Sample.ttest_ind Sample.proportion_effectsize no_solution
    0%Z = Raise ValueError.
Proof. vm_compute. reflexivity. Qed.

Lemma main_fails_only_in_libraries_witness :
  (exists p st, Sample.binomial 1 p 5000 st = Raise ValueError) \/
  (exists effect_size nobs1 power,
     no_solution (Some effect_size) nobs1 (Some (lit 5 100)) power
       (of_int 1) "two-sided" = Raise ValueError).
Proof.
  exact (main_fails_only_in_libraries Sample.rng Sample.seed Sample.binomial
           Sample.norm_cdf Sample.norm_ppf Sample.arcsin Sample.ttest_ind
           Sample.proportion_effectsize no_solution Sample_binomial_size
           0%Z ValueError sample_main_fails).
Defined.

(** ** Exchanging the groups *)

(** Rounding gives the same magnitude whatever the sign. *)
Lemma SFabs_binary_round_aux (s : bool) (m e : Z) (l : location) :
  SFabs (binary_round_aux prec emax s m e l)
  = SFabs (binary_round_aux prec emax false m e l).
Proof.
  unfold binary_round_aux.
  destruct (shr_fexp prec emax m e l) as [mrs e1].
  destruct (shr_fexp prec emax _ e1 loc_Exact) as [mrs2 e2].
  destruct (shr_m mrs2); [reflexivity| |reflexivity].
  destruct (Z.leb e2 _); reflexivity.
Qed.

Lemma SFabs_binary_normalize_opp (m e : Z) (sz sz' : bool) :
  SFabs (binary_normalize prec emax (- m) e sz)
  = SFabs (binary_normalize prec emax m e sz').
Proof.
  destruct m as [|p|p]; [reflexivity| |].
  - change (- Z.pos p)%Z with (Z.neg p).
    unfold binary_normalize, binary_round.
    destruct (shl_align _ _ _) as [mz ez]. apply SFabs_binary_round_aux.
  - change (- Z.neg p)%Z with (Z.pos p).
    unfold binary_normalize, binary_round.
    destruct (shl_align _ _ _) as [mz ez]. symmetry.
    apply SFabs_binary_round_aux.
Qed.

Lemma SFabs_sub_swap (x y : spec_float) :
  SFabs (SFsub prec emax x y) = SFabs (SFsub prec emax y x).
Proof.
  destruct x as [[]|[]| |sx mx ex], y as [[]|[]| |sy my ey];
    try reflexivity.
  unfold SFsub. rewrite (Z.min_comm ey ex).
  rewrite <- (SFabs_binary_normalize_opp _ _ false false). f_equal. f_equal.
  lia.
Qed.

(** Two values of one magnitude. *)
Lemma SFabs_div_l (a b s : spec_float) :
  SFabs a = SFabs b ->
  SFabs (SFdiv prec emax a s) = SFabs (SFdiv prec emax b s).
Proof.
  destruct a as [sa|sa| |sa ma ea], b as [sb|sb| |sb mb eb];
    try discriminate; intros Hab;
    destruct s as [ss|ss| |ss ms es]; try reflexivity.
  injection Hab as -> ->. unfold SFdiv.
  destruct (SFdiv_core_binary _ _ _ _ _ _) as [[mz ez] lz].
  etransitivity; [apply SFabs_binary_round_aux|].
  symmetry. apply SFabs_binary_round_aux.
Qed.

Lemma SFabs_mul_r (c a b : spec_float) :
  SFabs a = SFabs b ->
  SFabs (SFmul prec emax c a) = SFabs (SFmul prec emax c b).
Proof.
  destruct a as [sa|sa| |sa ma ea], b as [sb|sb| |sb mb eb];
    try discriminate; intros Hab;
    destruct c as [sc|sc| |sc mc ec]; try reflexivity.
  injection Hab as -> ->. unfold SFmul.
  etransitivity; [apply SFabs_binary_round_aux|].
  symmetry. apply SFabs_binary_round_aux.
Qed.

Lemma float_abs_div_sub (x y s : float) :
  PrimFloat.abs ((x - y) / s) = PrimFloat.abs ((y - x) / s).
Proof.
  apply Prim2SF_inj. rewrite !abs_spec, !div_spec, !sub_spec.
  apply SFabs_div_l, SFabs_sub_swap.
Qed.

Lemma float_abs_mul_sub (c x y : float) :
  PrimFloat.abs (c * (x - y)) = PrimFloat.abs (c * (y - x)).
Proof.
  apply Prim2SF_inj. rewrite !abs_spec, !mul_spec, !sub_spec.
  apply SFabs_mul_r, SFabs_sub_swap.
Qed.

(** Binary64 addition commutes. *)
Lemma float_add_comm (x y : float) : (x + y = y + x)%float.
Proof.
  apply Prim2SF_inj. rewrite !add_spec. unfold SF64add.
  destruct (Prim2SF x) as [[]|[]| |sx mx ex],
           (Prim2SF y) as [[]|[]| |sy my ey]; try reflexivity.
  unfold SFadd. rewrite (Z.min_comm ey ex). f_equal. lia.
Qed.

(** Of [x - y] and [y - x] at most one is above zero. *)
Lemma float_sub_pos_swap (x y : float) :
  PrimFloat.ltb 0 (x - y) = true -> PrimFloat.ltb 0 (y - x) = false.
Proof.
  rewrite !ltb_spec, !sub_spec. change (Prim2SF 0) with (S754_zero false).
  unfold SF64sub.
  destruct (Prim2SF x) as [[]|[]| |sx mx ex],
           (Prim2SF y) as [[]|[]| |sy my ey];
    try discriminate; try reflexivity;
    try (destruct sx; try discriminate; reflexivity);
    try (destruct sy; try discriminate; reflexivity).
  unfold SFsub. rewrite (Z.min_comm ey ex).
  set (a := cond_Zopp sx _). set (b := cond_Zopp sy _).
  replace (b - a)%Z with (- (a - b))%Z by lia.
  unfold binary_normalize.
  destruct (a - b)%Z as [|p|p]; [discriminate| |].
  - intros _. change (- Z.pos p)%Z with (Z.neg p). cbv beta iota.
    pose proof (binary_round_sign true p (Z.min ex ey)) as Hs.
    destruct (binary_round _ _ true _ _) as [[]|[]| |[] ? ?];
      try reflexivity; discriminate Hs.
  - cbv beta iota. intros Hlt. exfalso.
    pose proof (binary_round_sign true p (Z.min ex ey)) as Hs.
    destruct (binary_round _ _ true _ _) as [[]|[]| |[] ? ?];
      try discriminate Hlt; discriminate Hs.
Qed.

Lemma converted_of_swap (d : list row) (g : group) :
  converted_of (swap_groups d) g = converted_of d (swap_group g).
Proof.
  unfold converted_of, swap_groups.
  induction d as [|r d IH]; [reflexivity|].
  rewrite fmap_cons, !filter_cons. cbn [grp].
  destruct r as [i [] c], g; cbn [grp swap_group];
    repeat case_decide; try congruence;
    rewrite ?fmap_cons; cbn [converted]; now rewrite IH.
Qed.

(** ** The threshold *)

Lemma SFltb_leb_trans (x y z : spec_float) :
  SFltb x y = true -> SFleb y z = true -> SFltb x z = true.
Proof.
  unfold SFltb, SFleb.
  destruct x as [sx|sx| |sx mx ex], y as [sy|sy| |sy my ey],
           z as [sz|sz| |sz mz ez];
    cbn [SFcompare];
    try discriminate; try reflexivity;
    repeat match goal with s : bool |- _ => destruct s end;
    try discriminate; try reflexivity.
  - destruct (Z.compare_spec ex ey), (Z.compare_spec ey ez),
      (Z.compare_spec ex ez); try discriminate; try reflexivity; try lia.
    subst. rewrite !Pos.compare_cont_spec. cbn [Pos.switch_Eq].
    destruct (Pos.compare_spec mx my), (Pos.compare_spec my mz),
      (Pos.compare_spec mx mz); cbn; try discriminate; try reflexivity; lia.
  - destruct (Z.compare_spec ex ey), (Z.compare_spec ey ez),
      (Z.compare_spec ex ez); try discriminate; try reflexivity; try lia.
    subst. rewrite !Pos.compare_cont_spec. cbn [Pos.switch_Eq].
    destruct (Pos.compare_spec mx my), (Pos.compare_spec my mz),
      (Pos.compare_spec mx mz); cbn; try discriminate; try reflexivity; lia.
Qed.

Lemma float_ltb_leb_trans (x y z : float) :
  PrimFloat.ltb x y = true -> PrimFloat.leb y z = true ->
  PrimFloat.ltb x z = true.
Proof. rewrite !ltb_spec, leb_spec. apply SFltb_leb_trans. Qed.

Section Relabelling.
Variable norm_cdf norm_ppf np_arcsin : float -> float.
Variable ttest_ind : list Z -> list Z -> float * float.
Variable proportion_effectsize : float -> float -> float.
Variable zt_ind_solve_power :
  option float -> option float -> option float -> option float -> float ->
  string -> result float.
Implicit Types self : ABTestAnalyzer float.

#[local] Abbreviation run :=
  (run_full_analysis norm_cdf norm_ppf np_arcsin ttest_ind
     proportion_effectsize zt_ind_solve_power).

Lemma loc_mean_swap (d : list row) (g : group) (r : float) :
  loc_mean (swap_groups d) g = Ok r -> loc_mean d (swap_group g) = Ok r.
Proof.
  unfold loc_mean, groupby_agg. rewrite converted_of_swap.
  destruct (converted_of d (swap_group g)); [discriminate|trivial].
Qed.

Lemma pooled_se_df_swap (d : list row) :
  pooled_se_df (F := float) (swap_groups d) = pooled_se_df d.
Proof.
  unfold pooled_se_df, pooled_se_of, pooled_prob_of, int_truediv.
  rewrite !converted_of_swap. cbn [swap_group].
  rewrite (Z.add_comm (sum_list (converted_of d Treatment))),
          (Z.add_comm (len (converted_of d Treatment))).
  repeat case_decide; try reflexivity.
  cbn [mbind result_bind mret result_ret]. do 3 f_equal.
  apply float_add_comm.
Qed.

Lemma p_value_of_swap (rc rt se : float) :
  p_value_of norm_cdf (z_stat_of rt rc se)
  = p_value_of norm_cdf (z_stat_of rc rt se).
Proof.
  unfold p_value_of, z_stat_of. do 3 f_equal. apply float_abs_div_sub.
Qed.

Lemma effect_category_of_swap (rc rt : float) :
  effect_category_of (cohens_h_of np_arcsin rt rc)
  = effect_category_of (cohens_h_of np_arcsin rc rt).
Proof.
  unfold effect_category_of, cohens_h_of.
  change fabs with PrimFloat.abs. change fmul with PrimFloat.mul.
  change fsub with PrimFloat.sub.
  now rewrite (float_abs_mul_sub _ (np_arcsin (fsqrt rc))).
Qed.

#[local] Ltac look :=
  repeat first [rewrite lookup_store_eq
               |rewrite lookup_store_ne by discriminate].

(** X14.  On binary64, exchanging the labels of the two groups exchanges the
    two rates and the two cohort intervals and leaves the p-value, the
    magnitude of the z statistic and the effect category as they were; and of
    the two runs at most one recommends the rollout. *)
Theorem relabelling_groups self s1 v1 s2 v2 :
  run_full_analysis norm_cdf norm_ppf np_arcsin ttest_ind
    proportion_effectsize zt_ind_solve_power self = Ok (s1, v1) ->
  run_full_analysis norm_cdf norm_ppf np_arcsin ttest_ind
    proportion_effectsize zt_ind_solve_power (swap_analyzer self)
  = Ok (s2, v2) ->
  results s2 !! "control_rate" = results s1 !! "treatment_rate" /\
  results s2 !! "treatment_rate" = results s1 !! "control_rate" /\
  results s2 !! "control_ci" = results s1 !! "treatment_ci" /\
  results s2 !! "treatment_ci" = results s1 !! "control_ci" /\
  results s2 !! "p_value" = results s1 !! "p_value" /\
  results s2 !! "effect_category" = results s1 !! "effect_category" /\
  (exists z1 z2,
     results s1 !! "z_stat" = Some (VNum z1) /\
     results s2 !! "z_stat" = Some (VNum z2) /\
     PrimFloat.abs z2 = PrimFloat.abs z1) /\
  (v1 = Proceed -> v2 = Insufficient).
Proof.
  intros H1 H2.
  apply run_full_analysis_Ok in H1
    as (rc & rt & se & ap & rn & Hc & Ht & Hse & _ & _ & -> & Hv1).
  apply run_full_analysis_Ok in H2
    as (rc' & rt' & se' & ap' & rn' & Hc' & Ht' & Hse' & _ & _ & -> & Hv2).
  cbn [swap_analyzer df] in Hc', Ht', Hse'.
  apply loc_mean_swap in Hc', Ht'. rewrite pooled_se_df_swap in Hse'.
  cbn [swap_group] in Hc', Ht'.
  assert (rc' = rt) as -> by congruence.
  assert (rt' = rc) as -> by congruence.
  assert (se' = se) as -> by congruence.
  cbv zeta. cbn [swap_analyzer df n_per_group].
  rewrite !converted_of_swap. cbn [swap_group].
  repeat split.
  - now look.
  - now look.
  - now look.
  - now look.
  - look. now rewrite p_value_of_swap.
  - look. now rewrite effect_category_of_swap.
  - eexists _, _. split; [now look|]. split; [now look|].
    apply float_abs_div_sub.
  - intros ->. subst v2. cbn [swap_analyzer alpha n_per_group] in *.
    change flt with PrimFloat.ltb in *.
    destruct (PrimFloat.ltb 0 (rt - rc)) eqn:Hpos.
    + apply float_sub_pos_swap in Hpos.
      rewrite (diff_ci_lower_not_pos rt rc _ Hpos), andb_false_r.
      reflexivity.
    + rewrite (diff_ci_lower_not_pos rc rt _ Hpos), andb_false_r in Hv1.
      discriminate Hv1.
Qed.

End Relabelling.

Lemma sample_run_swapped_Ok :
  is_ok (sample_run (swap_analyzer sample_analyzer)) = true.
Proof. vm_compute. reflexivity. Qed.

Lemma relabelling_groups_witness :
  exists s1 s2,
    sample_run sample_analyzer = Ok (s1, Proceed) /\
    sample_run (swap_analyzer sample_analyzer) = Ok (s2, Insufficient) /\
    results s2 !! "p_value" = results s1 !! "p_value" /\
    results s2 !! "effect_category" = results s1 !! "effect_category".
Proof.
  destruct sample_run_Ok as [s1 H1].
  pose proof sample_run_swapped_Ok as Hok.
  destruct (sample_run (swap_analyzer sample_analyzer)) as [[s2 v2]|e] eqn:H2;
    [|discriminate Hok].
  unfold sample_run in H1, H2.
  destruct (relabelling_groups Sample.norm_cdf Sample.norm_ppf Sample.arcsin
              Sample.ttest_ind Sample.proportion_effectsize
              Sample.zt_ind_solve_power sample_analyzer s1 Proceed s2 v2
              H1 H2) as (_ & _ & _ & _ & Hp & He & _ & Hv).
  exists s1, s2. split; [exact H1|].
  split; [now rewrite (Hv eq_refl)|]. split; [exact Hp | exact He].
Defined.

(** ** The significance level and the verdict *)

Section Threshold.
Variable norm_cdf norm_ppf np_arcsin : float -> float.
Variable ttest_ind : list Z -> list Z -> float * float.
Variable proportion_effectsize : float -> float -> float.
Variable zt_ind_solve_power :
  option float -> option float -> option float -> option float -> float ->
  string -> result float.
Implicit Types self : ABTestAnalyzer float.

#[local] Abbreviation run :=
  (run_full_analysis norm_cdf norm_ppf np_arcsin ttest_ind
     proportion_effectsize zt_ind_solve_power).

(** X15.  On binary64, a verdict "proceed" survives a larger significance
    level: where the analysis at the level of [self] proceeds and the analysis
    at a level [a] not below it completes, that one proceeds as well. *)
Theorem verdict_monotone_in_alpha self (a : float) s1 s2 v2 :
  run_full_analysis norm_cdf norm_ppf np_arcsin ttest_ind
    proportion_effectsize zt_ind_solve_power self = Ok (s1, Proceed) ->
  PrimFloat.leb (alpha self) a = true ->
  run_full_analysis norm_cdf norm_ppf np_arcsin ttest_ind
    proportion_effectsize zt_ind_solve_power (with_alpha a self)
  = Ok (s2, v2) ->
  v2 = Proceed.
Proof.
  intros H1 Hle H2.
  apply run_full_analysis_Ok in H1
    as (rc & rt & se & ap & rn & Hc & Ht & Hse & _ & _ & _ & Hv).
  apply run_full_analysis_Ok in H2
    as (rc' & rt' & se' & ap' & rn' & Hc' & Ht' & Hse' & _ & _ & _ & ->).
  cbn [with_alpha df] in Hc', Ht', Hse'.
  assert (rc' = rc) as -> by congruence.
  assert (rt' = rt) as -> by congruence.
  assert (se' = se) as -> by congruence.
  cbn [with_alpha alpha n_per_group].
  change flt with PrimFloat.ltb in *.
  destruct (PrimFloat.ltb (p_value_of norm_cdf (z_stat_of rc rt se))
              (alpha self)) eqn:Hp; [|discriminate Hv].
  rewrite (float_ltb_leb_trans _ _ _ Hp Hle).
  cbn [andb] in *.
  now destruct (PrimFloat.ltb _ _).
Qed.

End Threshold.

Lemma verdict_monotone_in_alpha_witness :
  exists s1 s2,
    sample_run sample_analyzer = Ok (s1, Proceed) /\
    sample_run (with_alpha 0.1%float sample_analyzer) = Ok (s2, Proceed).
Proof.
  destruct sample_run_Ok as [s1 H1].
  pose proof sample_run_lenient_Ok as Hok.
  destruct (sample_run (with_alpha 0.1%float sample_analyzer))
    as [[s2 v2]|e] eqn:H2; [|discriminate Hok].
  exists s1, s2. split; [exact H1|].
  now rewrite (verdict_monotone_in_alpha Sample.norm_cdf Sample.norm_ppf
                 Sample.arcsin Sample.ttest_ind Sample.proportion_effectsize
                 Sample.zt_ind_solve_power sample_analyzer 0.1%float
                 s1 s2 v2 H1 eq_refl H2).
Defined.
